(** * RFV customer segmentation (Entrega_RFV.py)

    A shallow embedding of the script [Entrega_RFV.py]: the two quartile
    classification functions, the filter [selecao_valores_categoricos],
    the top-level RFV computation over the uploaded purchase table, and
    the comment dictionary kept in the Streamlit session state. *)

From Stdlib Require Import ZArith QArith Qround Lqa String List Sorted Lia.
From stdpp Require Import gmap strings list fin_maps.

Open Scope string_scope.

(** ** Python values *)

(** A Python/NumPy number: a rational stands for an int or a finite float,
    [NaN] for the float not-a-number that pandas uses for missing data.
    The rational is the exact value. Where the code computes in int64 the
    wrap-around is written out ([wrap64]); where it computes in binary64
    the operations are written as exact ones, which is what binary64
    computes on integers below 2^53, and the statements that depend on
    the outcome of such an operation assume operands in that range. *)
Inductive num : Type :=
  | Num (q : Q)
  | NaN.

(** [x <= y] on numbers: every comparison with [NaN] is [False]. *)
Definition num_le (x y : num) : bool :=
  match x, y with
  | Num a, Num b => Qle_bool a b
  | _, _ => false
  end.

(** [x < y] on numbers. *)
Definition num_lt (x y : num) : bool :=
  match x, y with
  | Num a, Num b => negb (Qle_bool b a)
  | _, _ => false
  end.

(** The exceptions the script can raise; all of them come from the
    library calls, the script defines no exception class of its own. *)
Inductive exn : Type :=
  | KeyError (label : string)
  | ValueError (label : string)
  | TypeError (label : string).


Inductive result (A : Type) : Type :=
  | Ok (a : A)
  | Err (e : exn).
Arguments Ok {A} a.
Arguments Err {A} e.

#[global] Instance result_ret : MRet result := fun A a => Ok a.
#[global] Instance result_bind : MBind result := fun A B f m =>
  match m with
  | Ok a => f a
  | Err e => Err e
  end.
#[global] Instance result_fmap : FMap result := fun A B f m =>
  match m with
  | Ok a => Ok (f a)
  | Err e => Err e
  end.

(** [d[key]] on a dictionary or on the columns of a DataFrame. *)
Definition getitem {V : Type} (d : gmap string V) (key : string) : result V :=
  match d !! key with
  | Some v => Ok v
  | None => Err (KeyError key)
  end.

(** ** Quartile classification *)

(** One column of the DataFrame [quartis]: the values stored under the
    index labels 0.25, 0.5 and 0.75. *)
Record qcol : Type := mk_qcol {
  p25 : num;
  p50 : num;
  p75 : num
}.

(** [quartis], indexed first by column name as in [q_dict[r][0.25]]. *)
Abbreviation q_table := (gmap string qcol).

Definition recencia_class (x : num) (r : string) (q_dict : q_table)
  : result string :=
  c ← getitem q_dict r;
  if num_le x (p25 c) then Ok "A"
  else if num_le x (p50 c) then Ok "B"
  else if num_le x (p75 c) then Ok "C"
  else Ok "D".

Definition frequencia_class (x : num) (f : string) (q_dict : q_table)
  : result string :=
  c ← getitem q_dict f;
  if num_le x (p25 c) then Ok "D"
  else if num_le x (p50 c) then Ok "C"
  else if num_le x (p75 c) then Ok "B"
  else Ok "A".

(** The order-reversing swap of the class letters. *)
Definition flip (c : string) : string :=
  if String.eqb c "A" then "D"
  else if String.eqb c "B" then "C"
  else if String.eqb c "C" then "B"
  else if String.eqb c "D" then "A"
  else c.

(** Alphabetical comparison of two class letters. *)
Definition alpha_le (c1 c2 : string) : bool := String.leb c1 c2.

(** ** The uploaded purchase table *)

(** A [DiaCompra] field as the CSV reader meets it: text that the date
    parser accepts (kept as nanoseconds since the epoch, the unit of
    datetime64), text that it rejects, or an empty field. *)
Inductive date_field : Type :=
  | Parsed (t : Z)
  | Unparsable (s : string)
  | Blank.

(** One line of the file. Empty fields are [None]; pandas reads them as
    NaN. A field whose column is not in the header is never read. The
    identifier and the purchase code are integers. The amount is a
    number, kept as the fraction its text denotes: the denominator is 1
    for an integer literal and a power of ten for a literal with a
    decimal point, so that 100 is [100 # 1] and 100.0 is [1000 # 10]. A
    file with other text in these columns is not described. *)
Record compra : Type := mk_compra {
  ID_cliente : option Z;
  DiaCompra : date_field;
  CodigoCompra : option Z;
  ValorTotal : option Q
}.

(** The file as uploaded, and [df_compras] as [read_csv] returns it: the
    column names of the header and the data lines. *)
Record DataFrame : Type := mk_df {
  columns : list string;
  linhas : list compra
}.

(** [pd.read_csv(uploaded_file, parse_dates=["DiaCompra"])]: a column
    named in [parse_dates] that is not in the header raises ValueError.
    A date column with a field that does not parse is returned
    unaltered, as text. *)
Definition read_csv (uploaded_file : DataFrame) : result DataFrame :=
  if decide ("DiaCompra" ∈ columns uploaded_file)
  then Ok uploaded_file
  else Err (ValueError "DiaCompra").

(** [df[name]]: the column, or KeyError when there is none of that name. *)
Definition column {A : Type} (df : DataFrame) (name : string)
    (field : compra -> A) : result (list A) :=
  if decide (name ∈ columns df)
  then Ok (map field (linhas df))
  else Err (KeyError name).

(** The [DiaCompra] column as datetime64 values ([None] is NaT), when
    every field of it parsed; [None] when it was left as text. *)
Fixpoint as_datetime (l : list date_field) : option (list (option Z)) :=
  match l with
  | [] => Some []
  | Parsed t :: l' => cons (Some t) <$> as_datetime l'
  | Blank :: l' => cons None <$> as_datetime l'
  | Unparsable _ :: _ => None
  end.

(** What the script requires of the column: on a column left as text,
    [max()] is a str and [str + pd.Timedelta(days=1)] raises TypeError. *)
Definition datetime64 (l : list date_field) : result (list (option Z)) :=
  match as_datetime l with
  | Some ts => Ok ts
  | None => Err (TypeError "DiaCompra")
  end.

(** [pd.Timedelta(days=n)] in nanoseconds. *)
Definition Timedelta (n : Z) : Z := (n * 86400000000000)%Z.

(** [delta.days]: whole days, rounded towards minus infinity. *)
Definition days (delta : Z) : Z := (delta / Timedelta 1)%Z.

(** [.max()] on datetime64: NaT is skipped, the result is NaT when
    nothing is left. *)
Definition ts_max (l : list (option Z)) : option Z :=
  foldr (fun o acc =>
           match o, acc with
           | Some a, Some b => Some (Z.max a b)
           | Some a, None => Some a
           | None, _ => acc
           end) None l.

(** [dia_atual = df_compras["DiaCompra"].max() + pd.Timedelta(days=1)].
    The sum is exact here, and so is the difference in [recencia_dias];
    those of the code are the same as long as they fit in the 64 bits
    of nanoseconds of a Timestamp and of a Timedelta. *)
Definition dia_atual (df_compras : DataFrame) : result (option Z) :=
  datas ← column df_compras "DiaCompra" DiaCompra;
  dias ← datetime64 datas;
  Ok ((fun m => (m + Timedelta 1)%Z) <$> ts_max dias).

(** *** groupby *)

(** The group keys are kept sorted and without duplicates. *)
Fixpoint insert_key (k : Z) (ks : list Z) : list Z :=
  match ks with
  | [] => [k]
  | k' :: ks' =>
      if (k <? k')%Z then k :: ks
      else if (k =? k')%Z then ks
      else k' :: insert_key k ks'
  end.

(** Rows whose key is NaN belong to no group. The keys are compared as
    exact integers; the code compares float64 values when the column has
    an empty field, which is the same comparison for identifiers below
    2^53 in absolute value. *)
Definition group_keys (ids : list (option Z)) : list Z :=
  foldr (fun o acc => match o with Some k => insert_key k acc | None => acc end)
        [] ids.

(** The values of the rows of group [k], in row order. *)
Definition members {A : Type} (k : Z) (rows : list (option Z * A)) : list A :=
  snd <$> List.filter (fun r => bool_decide (r.1 = Some k)) rows.

(** [groupby("ID_cliente")] followed by an aggregation [agg] of the one
    remaining column: one row per key, in key order. *)
Definition groupby_agg {A B : Type} (agg : list A -> B)
    (rows : list (option Z * A)) : list (Z * B) :=
  (fun k => (k, agg (members k rows))) <$> group_keys (fst <$> rows).

(** [.count()]: the number of values that are not NaN. *)
Definition group_count {A : Type} (l : list (option A)) : Z :=
  Z.of_nat (length (List.filter (fun o => bool_decide (is_Some o)) l)).

(** A 64-bit signed integer after an operation whose exact result is
    [z]: the result wraps around. *)
Definition wrap64 (z : Z) : Z := ((z + 2 ^ 63) mod 2 ^ 64 - 2 ^ 63)%Z.

(** A field that [read_csv] reads as an int64: an integer literal within
    the range of int64. *)
Definition int64_literal (o : option Q) : bool :=
  match o with
  | Some v =>
      (Qden v =? 1)%positive && (- 2 ^ 63 <=? Qnum v)%Z && (Qnum v <? 2 ^ 63)%Z
  | None => false
  end.

(** The dtype [read_csv] gives a column of numbers: int64 when every
    field is an int64 literal, float64 otherwise. An empty field is NaN,
    which only a float64 column holds. *)
Definition is_int64 (col : list (option Q)) : bool := forallb int64_literal col.

(** [.sum()] on an int64 column: every addition wraps around. *)
Definition int64_sum (l : list (option Q)) : Q :=
  inject_Z
    (foldl (fun acc o =>
              match o with Some v => wrap64 (acc + Qnum v) | None => acc end)
           0%Z l).

(** [.sum()] on a float64 column: NaN is skipped, the sum of nothing is
    0. The additions are exact here; those of the code are exact as long
    as the amounts and their partial sums are integers below 2^53. *)
Definition float64_sum (l : list (option Q)) : Q :=
  foldl (fun acc o => match o with Some v => (acc + v)%Q | None => acc end)
        0%Q l.

(** [.sum()] on the groups of a column of the given dtype. *)
Definition group_sum (int64 : bool) (l : list (option Q)) : Q :=
  if int64 then int64_sum l else float64_sum l.

(** [left.merge(right, on="ID_cliente")]: inner join that keeps the
    order of the left keys. *)
Definition df_merge {A B : Type} (left : list (Z * A)) (right : list (Z * B))
  : list (Z * (A * B)) :=
  left ≫= (fun ka =>
    (fun kb => (ka.1, (ka.2, kb.2))) <$>
      List.filter (fun kb => bool_decide (kb.1 = ka.1)) right).

(** *** The indicator table *)

(** The columns of a row of [df_RFV]; [Recencia] is [None] where pandas
    has NaN. A table pairs each row with its index label, which is the
    [ID_cliente] after [set_index]. *)
Record rfv : Type := mk_rfv {
  Recencia : option Z;
  Frequencia : Z;
  Valor : Q
}.

(** [(dia_atual - x).days]; NaT on either side gives NaN. *)
Definition recencia_dias (dia_atual x : option Z) : option Z :=
  match dia_atual, x with
  | Some d, Some u => Some (days (d - u))
  | _, _ => None
  end.

(** The script from the first use of [df_compras] to
    [df_RFV.set_index("ID_cliente")]. *)
Definition df_RFV (df_compras : DataFrame) : result (list (Z * rfv)) :=
  hoje ← dia_atual df_compras;
  ids ← column df_compras "ID_cliente" ID_cliente;
  datas ← column df_compras "DiaCompra" DiaCompra;
  dias ← datetime64 datas;
  let df_recencia :=
    (fun kx => (kx.1, recencia_dias hoje kx.2)) <$>
      groupby_agg ts_max (zip ids dias) in
  codigos ← column df_compras "CodigoCompra" CodigoCompra;
  let df_frequencia := groupby_agg group_count (zip ids codigos) in
  valores ← column df_compras "ValorTotal" ValorTotal;
  let df_valor := groupby_agg (group_sum (is_int64 valores)) (zip ids valores) in
  let df_RF := df_merge df_recencia df_frequencia in
  let df_RFV := df_merge df_RF df_valor in
  Ok ((fun r => (r.1, mk_rfv r.2.1.1 r.2.1.2 r.2.2)) <$> df_RFV).

(** *** Quartiles *)

Fixpoint Qinsert (x : Q) (l : list Q) : list Q :=
  match l with
  | [] => [x]
  | y :: l' => if Qle_bool x y then x :: l else y :: Qinsert x l'
  end.

Definition Qsort (l : list Q) : list Q := foldr Qinsert [] l.

(** The value at the real position [h] of the sorted column [s]: linear
    interpolation between the two closest order statistics. The
    difference and the product are exact here; those of the code are
    exact on integers below 2^48 in absolute value. *)
Definition interpola (s : list Q) (h : Q) : Q :=
  let i := Qfloor h in
  let lo := List.nth (Z.to_nat i) s 0%Q in
  let hi := List.nth (Z.to_nat (i + 1)) s lo in
  (lo + (hi - lo) * (h - inject_Z i))%Q.

(** The quantile of order [p] of a column, at position [(n - 1) * p] of
    the sorted values; NaN for an empty column. *)
Definition quantile (xs : list Q) (p : Q) : num :=
  match Qsort xs with
  | [] => NaN
  | s => Num (interpola s ((inject_Z (Z.of_nat (length s)) - 1) * p)%Q)
  end.

Definition quartis_col (xs : list Q) : qcol :=
  mk_qcol (quantile xs (1 # 4)) (quantile xs (1 # 2)) (quantile xs (3 # 4)).

(** A [Recencia] value as the number the classifier receives. *)
Definition num_of_recencia (r : option Z) : num :=
  match r with
  | Some d => Num (inject_Z d)
  | None => NaN
  end.

(** [df_RFV.quantile([0.25, 0.5, 0.75])]; NaN values are left out. *)
Definition quartis (df : list (Z * rfv)) : q_table :=
  <["Recencia" := quartis_col (inject_Z <$> omap (fun r => Recencia r.2) df)]>
  (<["Frequencia" := quartis_col ((fun r => inject_Z (Frequencia r.2)) <$> df)]>
  {["Valor" := quartis_col ((fun r => Valor r.2) <$> df)]}).

(** A row of [df_RFV] after the three class columns are added. *)
Record rfv_class : Type := mk_rfv_class {
  indicadores : rfv;
  R_quartil : string;
  F_quartil : string;
  V_quartil : string
}.

(** [Series.apply(f)]: [f] on every element, in order. *)
Definition Series_apply {A B : Type} (f : A -> result B) (col : list A)
  : result (list B) := mapM f col.

(** The three [apply] calls that add [R_quartil], [F_quartil] and
    [V_quartil]. *)
Definition classifica (df : list (Z * rfv)) : result (list (Z * rfv_class)) :=
  let q := quartis df in
  Rs ← Series_apply (fun r => recencia_class (num_of_recencia (Recencia r.2))
                                "Recencia" q) df;
  Fs ← Series_apply (fun r => frequencia_class (Num (inject_Z (Frequencia r.2)))
                                "Frequencia" q) df;
  Vs ← Series_apply (fun r => frequencia_class (Num (Valor r.2)) "Valor" q) df;
  Ok (zip_with (fun r c => (r.1, mk_rfv_class r.2 c.1.1 c.1.2 c.2))
               df (zip (zip Rs Fs) Vs)).

(** The classes the three [apply] calls compute for one row. *)
Definition classes_da_linha (q : q_table) (r : Z * rfv)
  : result (string * string * string) :=
  R ← recencia_class (num_of_recencia (Recencia r.2)) "Recencia" q;
  F ← frequencia_class (Num (inject_Z (Frequencia r.2))) "Frequencia" q;
  V ← frequencia_class (Num (Valor r.2)) "Valor" q;
  Ok (R, F, V).

(** *** The filter *)

(** A cell of the classified table. *)
Inductive cell : Type :=
  | CNum (x : num)
  | CStr (s : string).

(** The columns of the classified table by name. *)
Definition getcol (col : string) : option (rfv_class -> cell) :=
  if String.eqb col "Recencia"
  then Some (fun r => CNum (num_of_recencia (Recencia (indicadores r))))
  else if String.eqb col "Frequencia"
  then Some (fun r => CNum (Num (inject_Z (Frequencia (indicadores r)))))
  else if String.eqb col "Valor"
  then Some (fun r => CNum (Num (Valor (indicadores r))))
  else if String.eqb col "R_quartil" then Some (fun r => CStr (R_quartil r))
  else if String.eqb col "F_quartil" then Some (fun r => CStr (F_quartil r))
  else if String.eqb col "V_quartil" then Some (fun r => CStr (V_quartil r))
  else None.

(** [cell == selecionados] with a str on the right: a number is never
    equal to it. *)
Definition cell_eq (c : cell) (selecionados : string) : bool :=
  match c with
  | CStr s => String.eqb s selecionados
  | CNum _ => false
  end.

(** [relatorio.loc[mask]]: the rows whose mask entry is [True]. *)
Definition loc {A : Type} (relatorio : list A) (mask : list bool) : list A :=
  fst <$> List.filter snd (zip relatorio mask).

(** [.reset_index(drop=True)]: the index labels are thrown away and the
    rows are numbered from 0. *)
Definition reset_index {A : Type} (relatorio : list (Z * A)) : list (Z * A) :=
  zip (Z.of_nat <$> seq 0 (length relatorio)) relatorio.*2.

Definition selecao_valores_categoricos (relatorio : list (Z * rfv_class))
    (col : string) (selecionados : string) (verificacao : bool)
  : result (list (Z * rfv_class)) :=
  if verificacao then Ok relatorio
  else
    match getcol col with
    | Some f =>
        Ok (reset_index
              (loc relatorio ((fun r => cell_eq (f r.2) selecionados) <$> relatorio)))
    | None => Err (KeyError col)
    end.

(** [df_RFV1]: the three chained [pipe] calls. *)
Definition df_RFV1 (df : list (Z * rfv_class))
    (selecao_recencia selecao_frequencia selecao_valor : string)
  : result (list (Z * rfv_class)) :=
  d1 ← selecao_valores_categoricos df "R_quartil" selecao_recencia false;
  d2 ← selecao_valores_categoricos d1 "F_quartil" selecao_frequencia false;
  selecao_valores_categoricos d2 "V_quartil" selecao_valor false.

(** The script on an uploaded file, up to the filtered table: the
    classified [df_RFV] and [df_RFV1]. *)
Definition script (uploaded_file : DataFrame)
    (selecao_recencia selecao_frequencia selecao_valor : string)
  : result (list (Z * rfv_class) * list (Z * rfv_class)) :=
  df_compras ← read_csv uploaded_file;
  tabela ← df_RFV df_compras;
  classificada ← classifica tabela;
  filtrada ← df_RFV1 classificada selecao_recencia selecao_frequencia
               selecao_valor;
  Ok (classificada, filtrada).

(** ** The comment dictionary in the session state *)

(** [st.session_state]: the entry ["comentarios_rfv"], which is a
    dictionary from RFV score to comment when it is there, and the
    entries of the keyed widgets. *)
Record session_state : Type := mk_session {
  comentarios_rfv : option (gmap string string);
  widgets : gmap string string
}.

(** [if "comentarios_rfv" not in st.session_state:
       st.session_state["comentarios_rfv"] = {}] *)
Definition inicializa (st : session_state) : session_state :=
  match comentarios_rfv st with
  | Some _ => st
  | None => mk_session (Some ∅) (widgets st)
  end.

(** [st.session_state["comentarios_rfv"]] *)
Definition comentarios (st : session_state) : result (gmap string string) :=
  match comentarios_rfv st with
  | Some m => Ok m
  | None => Err (KeyError "comentarios_rfv")
  end.

(** [st.session_state["comentarios_rfv"][rfv_score_atual] = comentario_input] *)
Definition enviar_comentario (rfv_score_atual comentario_input : string)
    (st : session_state) : result session_state :=
  m ← comentarios st;
  Ok (mk_session (Some (<[rfv_score_atual := comentario_input]> m)) (widgets st)).

(** [st.session_state["comentarios_rfv"].pop(rfv_score_atual, None)] *)
Definition limpar_comentario (rfv_score_atual : string)
    (st : session_state) : result session_state :=
  m ← comentarios st;
  Ok (mk_session (Some (delete rfv_score_atual m)) (widgets st)).

(** [st.session_state.pop("comentarios_rfv", None)], the callback of
    the button that clears the saved comments. *)
Definition limpar_comentarios (st : session_state) : session_state :=
  mk_session None (widgets st).

(** [st.session_state.clear()], the callback of "Limpar dados". *)
Definition limpar_dados (st : session_state) : session_state :=
  mk_session None ∅.

(** What the user did to cause a run of the script. *)
Inductive clique : Type :=
  | EnviarComentario (comentario_input : string)
  | LimparComentario
  | LimparComentariosSalvos
  | LimparDados
  | Nenhum.

(** One run of the script with a file uploaded and the filtered table
    shown: the [on_click] callback of the pressed button runs first,
    then the script from the top. *)
Definition executa (c : clique) (rfv_score_atual : string)
    (st : session_state) : result session_state :=
  let st1 :=
    match c with
    | LimparComentariosSalvos => limpar_comentarios st
    | LimparDados => limpar_dados st
    | _ => st
    end in
  let st2 := inicializa st1 in
  match c with
  | EnviarComentario comentario_input =>
      enviar_comentario rfv_score_atual comentario_input st2
  | LimparComentario => limpar_comentario rfv_score_atual st2
  | _ => Ok st2
  end.

(** [st.session_state["comentarios_rfv"].get(x, "")] *)
Definition comentario_de (x : string) (st : session_state) : result string :=
  m ← comentarios st;
  Ok (default "" (m !! x)).

(** ** Vocabulary of the statements *)

(** The four columns the script reads. *)
Definition required_columns : list string :=
  ["ID_cliente"; "DiaCompra"; "CodigoCompra"; "ValorTotal"].

(** A line with a customer, a date that parses, a purchase code and an
    amount. *)
Definition linha_completa (c : compra) : bool :=
  bool_decide (is_Some (ID_cliente c)) &&
  match DiaCompra c with Parsed _ => true | _ => false end &&
  bool_decide (is_Some (CodigoCompra c)) &&
  bool_decide (is_Some (ValorTotal c)).

Definition has_columns (df : DataFrame) : bool :=
  forallb (fun c => bool_decide (c ∈ columns df)) required_columns.

(** A valid transaction set: the four columns, at least one line, and
    every line complete. *)
Definition bem_formado (df : DataFrame) : bool :=
  has_columns df &&
  negb (bool_decide (linhas df = [])) &&
  forallb linha_completa (linhas df).

(** The lines of customer [k]. *)
Definition compras_de (k : Z) (df : DataFrame) : list compra :=
  List.filter (fun c => bool_decide (ID_cliente c = Some k)) (linhas df).

(** The date of a line, when it has one that parsed. *)
Definition data_de (c : compra) : option Z :=
  match DiaCompra c with
  | Parsed t => Some t
  | _ => None
  end.

(** The dates of a list of lines. *)
Definition datas_de (l : list compra) : list Z := omap data_de l.

(** The amounts of a list of lines, summed one after the other. *)
Definition total_de (l : list compra) : Q :=
  foldr (fun c acc => (default 0%Q (ValorTotal c) + acc)%Q) 0%Q l.

(** The row of customer [k] written out from the lines of [df]: the
    script's reference date against the last date of [k], the number of
    purchase codes of [k], and the sum of the amounts of [k] in the
    dtype of the amount column of [df]. *)
Definition linha_rfv (df : DataFrame) (k : Z) : rfv :=
  mk_rfv
    (recencia_dias ((fun m => (m + Timedelta 1)%Z) <$>
                      ts_max (data_de <$> linhas df))
                   (ts_max (data_de <$> compras_de k df)))
    (group_count (CodigoCompra <$> compras_de k df))
    (group_sum (is_int64 (ValorTotal <$> linhas df))
               (ValorTotal <$> compras_de k df)).

(** [m] is the greatest element of [l]. *)
Definition is_max (m : Z) (l : list Z) : Prop :=
  m ∈ l /\ forall x, x ∈ l -> (x <= m)%Z.

(** The row has the three selected classes. *)
Definition selecionada (sr sf sv : string) (r : Z * rfv_class) : bool :=
  String.eqb (R_quartil r.2) sr &&
  String.eqb (F_quartil r.2) sf &&
  String.eqb (V_quartil r.2) sv.

(** The comment dictionary a run of the script starts from. *)
Definition comentarios_iniciais (st : session_state) : gmap string string :=
  default ∅ (comentarios_rfv st).

(** The purchases of the scenario of the specification: customer 1 buys
    on day 1 and on day 10, customer 2 on day 5. *)
Definition exemplo : DataFrame :=
  mk_df ["ID_cliente"; "DiaCompra"; "CodigoCompra"; "ValorTotal"]
    [mk_compra (Some 1%Z) (Parsed (Timedelta 1)) (Some 1%Z) (Some 100%Q);
     mk_compra (Some 1%Z) (Parsed (Timedelta 10)) (Some 2%Z) (Some 50%Q);
     mk_compra (Some 2%Z) (Parsed (Timedelta 5)) (Some 3%Z) (Some 200%Q)].

(** ** The marketing strategy table *)

(** The options of the three select boxes. *)
Definition letras : list string := ["A"; "B"; "C"; "D"].

(** [df["R_quartil"] + df["F_quartil"] + df["V_quartil"]] on one row. *)
Definition rfv_score (r : rfv_class) : string :=
  R_quartil r ++ F_quartil r ++ V_quartil r.

(** A row of [df_marketing_strategy]. *)
Record estrategia : Type := mk_estrategia {
  RFV_Score : string;
  Comentario : string
}.

(** [df_marketing_strategy]: the score of every row of the table shown,
    and beside it the comment saved for that score; the dictionary is
    read once for each row. *)
Definition df_marketing_strategy (df : list (Z * rfv_class))
    (st : session_state) : result (list (Z * estrategia)) :=
  Series_apply
    (fun r => c ← comentario_de (rfv_score r.2) st;
              Ok (r.1, mk_estrategia (rfv_score r.2) c)) df.


(** One run of the script with the box "Exibir tabela RFV filtrada"
    ticked, from the callbacks to the last button: the strategy table
    that is displayed and exported, and the session state the run
    leaves. The table is built before the buttons are looked at. *)
Definition pagina_filtrada (c : clique)
    (selecao_recencia selecao_frequencia selecao_valor : string)
    (df_RFV1 : list (Z * rfv_class)) (st : session_state)
  : result (list (Z * estrategia) * session_state) :=
  let st1 :=
    match c with
    | LimparComentariosSalvos => limpar_comentarios st
    | LimparDados => limpar_dados st
    | _ => st
    end in
  let st2 := inicializa st1 in
  df_marketing_strategy1 ← df_marketing_strategy df_RFV1 st2;
  let rfv_score_atual :=
    selecao_recencia ++ selecao_frequencia ++ selecao_valor in
  valor_inicial ← comentario_de rfv_score_atual st2;
  st3 ← match c with
        | EnviarComentario comentario_input =>
            enviar_comentario rfv_score_atual comentario_input st2
        | LimparComentario => limpar_comentario rfv_score_atual st2
        | _ => Ok st2
        end;
  Ok (df_marketing_strategy1, st3).

(** ** Vocabulary of the further statements *)

(** The letter of the recency cascade on one column of breakpoints. *)
Definition letra_recencia (x : num) (c : qcol) : string :=
  if num_le x (p25 c) then "A"
  else if num_le x (p50 c) then "B"
  else if num_le x (p75 c) then "C"
  else "D".

(** The letter of the frequency and value cascade. *)
Definition letra_frequencia (x : num) (c : qcol) : string :=
  if num_le x (p25 c) then "D"
  else if num_le x (p50 c) then "C"
  else if num_le x (p75 c) then "B"
  else "A".

(** The lines of customer [k] that have a purchase code. *)
Definition compras_com_codigo (k : Z) (df : DataFrame) : list compra :=
  List.filter (fun c => bool_decide (is_Some (CodigoCompra c))) (compras_de k df).

(** The file accepted by the script: the four columns and a date column
    without a field that does not parse. *)
Definition aceito (df : DataFrame) : Prop :=
  has_columns df = true /\ forall s, Unparsable s ∉ DiaCompra <$> linhas df.

(** The three columns of [quartis] for a table. *)
Definition quartis_R (df : list (Z * rfv)) : qcol :=
  quartis_col (inject_Z <$> omap (fun r => Recencia r.2) df).

Definition quartis_F (df : list (Z * rfv)) : qcol :=
  quartis_col ((fun r => inject_Z (Frequencia r.2)) <$> df).

Definition quartis_V (df : list (Z * rfv)) : qcol :=
  quartis_col ((fun r => Valor r.2) <$> df).

(** A row with its three letters against given breakpoints. *)
Definition linha_classificada (cR cF cV : qcol) (r : Z * rfv) : Z * rfv_class :=
  (r.1,
   mk_rfv_class r.2
     (letra_recencia (num_of_recencia (Recencia r.2)) cR)
     (letra_frequencia (Num (inject_Z (Frequencia r.2))) cF)
     (letra_frequencia (Num (Valor r.2)) cV)).

(** The file without the lines that have no customer identifier. *)
Definition sem_linhas_anonimas (df : DataFrame) : DataFrame :=
  mk_df (columns df)
        (List.filter (fun c => bool_decide (is_Some (ID_cliente c))) (linhas df)).

(** The 64 triples of letters, one for each setting of the three select
    boxes. *)
Definition selecoes : list (string * string * string) :=
  sr ← letras; sf ← letras; sv ← letras; [(sr, sf, sv)].

(** The number of rows of [df_RFV1] for one setting. *)
Definition linhas_filtradas (df : list (Z * rfv_class))
    (s : string * string * string) : nat :=
  match df_RFV1 df s.1.1 s.1.2 s.2 with
  | Ok out => length out
  | Err _ => 0
  end.

(** The session state after the callback of the pressed button and the
    first lines of the script. *)
Definition estado_inicial (c : clique) (st : session_state) : session_state :=
  inicializa
    match c with
    | LimparComentariosSalvos => limpar_comentarios st
    | LimparDados => limpar_dados st
    | _ => st
    end.

(** [aceito] as a test. *)
Definition aceito_b (df : DataFrame) : bool :=
  has_columns df &&
  forallb (fun c => match DiaCompra c with Unparsable _ => false | _ => true end)
          (linhas df).

(** A file with empty fields and a column the script does not read:
    customer 1 has a line without purchase code and a line without date
    and amount, one line has no customer, and the only line of customer
    2 has nothing but the identifier. *)
Definition exemplo_vazios : DataFrame :=
  mk_df ["Loja"; "ValorTotal"; "CodigoCompra"; "DiaCompra"; "ID_cliente"]
    [mk_compra (Some 1%Z) (Parsed (Timedelta 1)) None (Some 100%Q);
     mk_compra (Some 1%Z) Blank (Some 2%Z) None;
     mk_compra None (Parsed (Timedelta 20)) (Some 3%Z) (Some 7%Q);
     mk_compra (Some 2%Z) Blank None None].

(** The scenario with its columns in another order, one more column,
    and its first two lines exchanged. *)
Definition exemplo_trocado : DataFrame :=
  mk_df ["ValorTotal"; "Loja"; "DiaCompra"; "ID_cliente"; "CodigoCompra"]
    [mk_compra (Some 1%Z) (Parsed (Timedelta 10)) (Some 2%Z) (Some 50%Q);
     mk_compra (Some 1%Z) (Parsed (Timedelta 1)) (Some 1%Z) (Some 100%Q);
     mk_compra (Some 2%Z) (Parsed (Timedelta 5)) (Some 3%Z) (Some 200%Q)].

(** ** Numbers within the exact range *)

(** The amounts form an int64 column. *)
Definition quantias_int64 (df : DataFrame) : bool :=
  is_int64 (ValorTotal <$> linhas df).

(** The numerators of the amounts of a list of lines, added as
    integers. *)
Definition total_inteiro (l : list compra) : Z :=
  foldr (fun c acc =>
           (match ValorTotal c with Some v => Qnum v | None => 0 end + acc)%Z)
        0%Z l.

(** The absolute values of the numerators of the amounts, added up. *)
Definition total_absoluto (l : list compra) : Z :=
  foldr (fun c acc =>
           (match ValorTotal c with Some v => Z.abs (Qnum v) | None => 0 end
            + acc)%Z)
        0%Z l.

(** The amount of the line is empty or an integer literal. *)
Definition quantia_inteira (c : compra) : bool :=
  match ValorTotal c with
  | Some v => (Qden v =? 1)%positive
  | None => true
  end.

(** Amounts that are integers and whose absolute values add up to less
    than 2^53: whichever amounts are added, in whatever order, as int64
    or as binary64, every addition is exact. *)
Definition quantias_exatas (df : DataFrame) : bool :=
  forallb quantia_inteira (linhas df) &&
  (total_absoluto (linhas df) <? 2 ^ 53)%Z.

(** Identifiers below 2^53 in absolute value: a float64 column, which
    is what [ID_cliente] is when one of its fields is empty, holds each
    of them exactly. *)
Definition ids_exatos (df : DataFrame) : bool :=
  forallb (fun c =>
             match ID_cliente c with
             | Some k => (Z.abs k <? 2 ^ 53)%Z
             | None => true
             end)
          (linhas df).

(** Dates within 2^62 nanoseconds of the epoch less one day, that is
    between the years 1824 and 2116: the day after each of them and the
    difference between two of them fit in the 64 bits of datetime64 and
    of Timedelta. *)
Definition datas_exatas (df : DataFrame) : bool :=
  forallb (fun c =>
             match DiaCompra c with
             | Parsed t => (Z.abs t <=? 2 ^ 62 - 86400000000000)%Z
             | _ => true
             end)
          (linhas df).

(** An integer below 2^48 in absolute value. *)
Definition inteiro_pequeno (q : Q) : bool :=
  (Qden q =? 1)%positive && (Z.abs (Qnum q) <? 2 ^ 48)%Z.

(** An indicator table whose numbers are integers below 2^48 in
    absolute value: the interpolation between two values of a column is
    exact in int64 and in binary64. *)
Definition tabela_exata (df : list (Z * rfv)) : bool :=
  forallb (fun r =>
             match Recencia r.2 with
             | Some d => (Z.abs d <? 2 ^ 48)%Z
             | None => true
             end &&
             (Z.abs (Frequencia r.2) <? 2 ^ 48)%Z &&
             inteiro_pequeno (Valor r.2))
          df.


(** * Properties *)

(** ** Quartile classification *)

Lemma num_le_Num (a b : Q) : num_le (Num a) (Num b) = true <-> (a <= b)%Q.
Proof. apply Qle_bool_iff. Qed.


Lemma getitem_Some {V : Type} (d : gmap string V) (k : string) (v : V) :
  d !! k = Some v -> getitem d k = Ok v.
Proof. intros H. unfold getitem. now rewrite H. Qed.

(** The cascade of the two functions, read off the code. *)
Lemma recencia_class_eq (x : num) (k : string) (q : q_table) (c : qcol) :
  q !! k = Some c ->
  recencia_class x k q =
    Ok (if num_le x (p25 c) then "A"
        else if num_le x (p50 c) then "B"
        else if num_le x (p75 c) then "C" else "D").
Proof.
  intros H. unfold recencia_class. rewrite (getitem_Some _ _ _ H). simpl.
  now repeat case_match.
Qed.

Lemma frequencia_class_eq (x : num) (k : string) (q : q_table) (c : qcol) :
  q !! k = Some c ->
  frequencia_class x k q =
    Ok (if num_le x (p25 c) then "D"
        else if num_le x (p50 c) then "C"
        else if num_le x (p75 c) then "B" else "A").
Proof.
  intros H. unfold frequencia_class. rewrite (getitem_Some _ _ _ H). simpl.
  now repeat case_match.
Qed.

(** Smaller inputs pass every test that a larger input passes. *)
Lemma num_le_lt_trans (x1 x2 y : num) :
  num_lt x1 x2 = true -> num_le x2 y = true -> num_le x1 y = true.
Proof.
  destruct x1 as [a|], x2 as [b|], y as [c|]; simpl; try discriminate.
  intros Hlt Hle. apply Qle_bool_iff. apply Qle_bool_iff in Hle.
  apply negb_true_iff in Hlt.
  assert (Hab : (a < b)%Q).
  { apply Qnot_le_lt. intros H. apply Qle_bool_iff in H. congruence. }
  apply Qlt_le_weak. eapply Qlt_le_trans; eassumption.
Qed.


(** C5: on any one column of breakpoints the recency class does not
    decrease, and the frequency/value class does not increase, when the
    input grows. *)
Theorem classes_monotone (q : q_table) (k : string) (c : qcol) (x1 x2 : num) :
  q !! k = Some c ->
  num_lt x1 x2 = true ->
  (exists c1 c2,
     recencia_class x1 k q = Ok c1 /\ recencia_class x2 k q = Ok c2 /\
     alpha_le c1 c2 = true) /\
  (exists d1 d2,
     frequencia_class x1 k q = Ok d1 /\ frequencia_class x2 k q = Ok d2 /\
     alpha_le d2 d1 = true).
Proof.
  intros Hq Hlt.
  rewrite !(recencia_class_eq _ _ _ _ Hq), !(frequencia_class_eq _ _ _ _ Hq).
  pose proof (num_le_lt_trans x1 x2 (p25 c) Hlt) as T1.
  pose proof (num_le_lt_trans x1 x2 (p50 c) Hlt) as T2.
  pose proof (num_le_lt_trans x1 x2 (p75 c) Hlt) as T3.
  split; do 2 eexists; (split; [reflexivity|split; [reflexivity|]]).
  - destruct (num_le x2 (p25 c)); [rewrite T1 by reflexivity; reflexivity|].
    destruct (num_le x2 (p50 c));
      [rewrite T2 by reflexivity; now destruct (num_le x1 (p25 c))|].
    destruct (num_le x2 (p75 c));
      [rewrite T3 by reflexivity;
       now destruct (num_le x1 (p25 c)), (num_le x1 (p50 c))|].
    now destruct (num_le x1 (p25 c)), (num_le x1 (p50 c)), (num_le x1 (p75 c)).
  - destruct (num_le x2 (p25 c)); [rewrite T1 by reflexivity; reflexivity|].
    destruct (num_le x2 (p50 c));
      [rewrite T2 by reflexivity; now destruct (num_le x1 (p25 c))|].
    destruct (num_le x2 (p75 c));
      [rewrite T3 by reflexivity;
       now destruct (num_le x1 (p25 c)), (num_le x1 (p50 c))|].
    now destruct (num_le x1 (p25 c)), (num_le x1 (p50 c)), (num_le x1 (p75 c)).
Qed.

(** C10: for every input, key and table, the recency class is the
    flipped frequency/value class; a missing key raises the same KeyError
    in both. *)
Theorem recencia_class_flip (x : num) (k : string) (q : q_table) :
  recencia_class x k q = flip <$> frequencia_class x k q.
Proof.
  unfold recencia_class, frequencia_class.
  destruct (getitem q k) as [c|e]; simpl; [|reflexivity].
  now destruct (num_le x (p25 c)), (num_le x (p50 c)), (num_le x (p75 c)).
Qed.

(** ** The breakpoints are in order *)

Lemma In_Qinsert (x y : Q) (l : list Q) :
  In y (Qinsert x l) <-> y = x \/ In y l.
Proof.
  induction l as [|z l IH]; cbn; [intuition congruence|].
  destruct (Qle_bool x z); cbn; [intuition congruence|].
  rewrite IH. tauto.
Qed.

Lemma Qinsert_sorted (x : Q) (l : list Q) :
  StronglySorted Qle l -> StronglySorted Qle (Qinsert x l).
Proof.
  induction 1 as [|z l Hs IH Hall]; cbn.
  - constructor; constructor.
  - destruct (Qle_bool x z) eqn:E.
    + apply Qle_bool_iff in E.
      constructor; [now constructor|].
      constructor; [assumption|].
      eapply List.Forall_impl; [|exact Hall].
      intros y Hy. eapply Qle_trans; eassumption.
    + assert (Hzx : (z <= x)%Q).
      { apply Qlt_le_weak, Qnot_le_lt. intros H.
        apply Qle_bool_iff in H. congruence. }
      constructor; [assumption|].
      apply List.Forall_forall. intros y Hy.
      apply In_Qinsert in Hy as [->|Hy]; [assumption|].
      rewrite List.Forall_forall in Hall. now apply Hall.
Qed.

Lemma Qsort_sorted (l : list Q) : StronglySorted Qle (Qsort l).
Proof.
  induction l as [|x l IH]; cbn; [constructor|].
  now apply Qinsert_sorted.
Qed.

Lemma length_Qinsert (x : Q) (l : list Q) :
  length (Qinsert x l) = S (length l).
Proof.
  induction l as [|z l IH]; cbn; [reflexivity|].
  destruct (Qle_bool x z); cbn; [reflexivity|]. now rewrite IH.
Qed.

Lemma length_Qsort (l : list Q) : length (Qsort l) = length l.
Proof.
  induction l as [|x l IH]; [reflexivity|].
  change (Qsort (x :: l)) with (Qinsert x (Qsort l)).
  rewrite length_Qinsert, IH. reflexivity.
Qed.

Lemma sorted_nth (s : list Q) (d : Q) (i j : nat) :
  StronglySorted Qle s -> (i <= j < length s)%nat ->
  (List.nth i s d <= List.nth j s d)%Q.
Proof.
  intros Hs. revert i j. induction Hs as [|a s Hs IH Hall]; intros i j Hij.
  - cbn in Hij. lia.
  - destruct i as [|i], j as [|j]; cbn in *; try lia.
    + apply Qle_refl.
    + rewrite List.Forall_forall in Hall. apply Hall.
      apply List.nth_In. lia.
    + apply IH. lia.
Qed.

Section Interpolation.
Variable s : list Q.
Hypothesis s_sorted : StronglySorted Qle s.

Let n : Q := inject_Z (Z.of_nat (length s)).

(** Index and fraction of a position inside the column. *)
Lemma floor_in_range (h : Q) :
  (0 <= h)%Q -> (h <= n - 1)%Q ->
  (0 <= Qfloor h)%Z /\ (Z.to_nat (Qfloor h) < length s)%nat.
Proof.
  intros H0 Hn.
  assert (G0 : (0 <= Qfloor h)%Z).
  { change 0%Z with (Qfloor 0). now apply Qfloor_resp_le. }
  split; [exact G0|].
  assert (G1 : (inject_Z (Qfloor h) <= n - 1)%Q).
  { eapply Qle_trans; [apply Qfloor_le|exact Hn]. }
  assert (G2 : (inject_Z (Qfloor h + 1) <= inject_Z (Z.of_nat (length s)))%Q).
  { rewrite inject_Z_plus. change (inject_Z 1) with 1%Q.
    unfold n in G1. lra. }
  rewrite <- Zle_Qle in G2. lia.
Qed.

Lemma lo_le_hi (i : nat) :
  (i < length s)%nat ->
  (List.nth i s 0 <= List.nth (S i) s (List.nth i s 0))%Q.
Proof.
  intros Hi. destruct (Nat.lt_ge_cases (S i) (length s)) as [H|H].
  - rewrite (List.nth_indep s (List.nth i s 0%Q) 0%Q H).
    apply sorted_nth; [assumption|lia].
  - rewrite (List.nth_overflow s _ H). apply Qle_refl.
Qed.

Lemma interpola_bounds (h : Q) :
  (0 <= h)%Q -> (h <= n - 1)%Q ->
  let i := Z.to_nat (Qfloor h) in
  (List.nth i s 0 <= interpola s h)%Q /\
  (interpola s h <= List.nth (S i) s (List.nth i s 0))%Q.
Proof.
  intros H0 Hn i.
  destruct (floor_in_range h H0 Hn) as [Gi Gn].
  pose proof (lo_le_hi i Gn) as Hlh.
  pose proof (Qfloor_le h) as F1. pose proof (Qlt_floor h) as F2.
  rewrite inject_Z_plus in F2. change (inject_Z 1) with 1%Q in F2.
  unfold interpola. cbn zeta.
  replace (Z.to_nat (Qfloor h + 1)) with (S i) by (unfold i; lia).
  fold i.
  set (lo := List.nth i s 0%Q) in *.
  set (hi := List.nth (S i) s lo) in *.
  set (f := (h - inject_Z (Qfloor h))%Q).
  assert (Hf0 : (0 <= f)%Q) by (unfold f; lra).
  assert (Hf1 : (f <= 1)%Q) by (unfold f; lra).
  split; nra.
Qed.

Lemma interpola_mono (h h' : Q) :
  (0 <= h)%Q -> (h <= h')%Q -> (h' <= n - 1)%Q ->
  (interpola s h <= interpola s h')%Q.
Proof.
  intros H0 Hh Hn.
  assert (H0' : (0 <= h')%Q) by lra.
  assert (Hn' : (h <= n - 1)%Q) by lra.
  destruct (floor_in_range h H0 Hn') as [Gi Gin].
  destruct (floor_in_range h' H0' Hn) as [Gi' Gin'].
  pose proof (Qfloor_resp_le h h' Hh) as Hii.
  destruct (Z.eq_dec (Qfloor h) (Qfloor h')) as [E|E].
  - unfold interpola. cbn zeta. rewrite <- E.
    pose proof (lo_le_hi (Z.to_nat (Qfloor h)) Gin) as Hlh.
    replace (Z.to_nat (Qfloor h + 1)) with (S (Z.to_nat (Qfloor h))) by lia.
    set (lo := List.nth (Z.to_nat (Qfloor h)) s 0%Q) in *.
    set (hi := List.nth (S (Z.to_nat (Qfloor h))) s lo) in *.
    nra.
  - destruct (interpola_bounds h H0 Hn') as [_ Hup].
    destruct (interpola_bounds h' H0' Hn) as [Hlow _].
    cbn zeta in Hup, Hlow.
    eapply Qle_trans; [exact Hup|].
    eapply Qle_trans; [|exact Hlow].
    assert (Hlt : (S (Z.to_nat (Qfloor h)) < length s)%nat) by lia.
    rewrite (List.nth_indep s _ 0%Q Hlt).
    apply sorted_nth; [assumption|lia].
Qed.
End Interpolation.

(** The three breakpoints of a column that is not empty are numbers in
    non-decreasing order, so every table the script builds from at least
    one row is an ordered table of numbers. *)
Lemma quartis_col_ordered (xs : list Q) :
  xs <> [] ->
  exists q1 q2 q3,
    quartis_col xs = mk_qcol (Num q1) (Num q2) (Num q3) /\
    (q1 <= q2)%Q /\ (q2 <= q3)%Q.
Proof.
  intros Hne. unfold quartis_col, quantile.
  pose proof (Qsort_sorted xs) as Hs. pose proof (length_Qsort xs) as Hl.
  destruct (Qsort xs) as [|a s] eqn:E.
  { destruct xs; [contradiction|discriminate Hl]. }
  do 3 eexists. split; [reflexivity|].
  set (n := inject_Z (Z.of_nat (length (a :: s)))).
  assert (Hn : (1 <= n)%Q).
  { unfold n. change 1%Q with (inject_Z 1). rewrite <- Zle_Qle. cbn. lia. }
  split; apply interpola_mono; try assumption; fold n; nra.
Qed.

(** ** The filter *)

Lemma loc_mask {A : Type} (p : A -> bool) (l : list A) :
  loc l (p <$> l) = List.filter p l.
Proof.
  unfold loc. induction l as [|x l IH]; [reflexivity|].
  cbn. destruct (p x); cbn; now rewrite IH.
Qed.

Lemma reset_index_data {A : Type} (l : list (Z * A)) :
  (reset_index l).*2 = l.*2.
Proof.
  unfold reset_index. apply snd_zip.
  rewrite !length_fmap, length_seq. lia.
Qed.

Lemma reset_index_labels {A : Type} (l : list (Z * A)) :
  (reset_index l).*1 = Z.of_nat <$> seq 0 (length l).
Proof.
  unfold reset_index. apply fst_zip.
  rewrite !length_fmap, length_seq. lia.
Qed.

Lemma length_reset_index {A : Type} (l : list (Z * A)) :
  length (reset_index l) = length l.
Proof.
  rewrite <- (length_fmap snd (reset_index l)), reset_index_data.
  apply length_fmap.
Qed.

Lemma reset_index_ext {A : Type} (l1 l2 : list (Z * A)) :
  l1.*2 = l2.*2 -> reset_index l1 = reset_index l2.
Proof.
  intros H. unfold reset_index. rewrite H.
  rewrite <- (length_fmap snd l1), H, length_fmap. reflexivity.
Qed.

Lemma filter_data {A : Type} (p : A -> bool) (l : list (Z * A)) :
  (List.filter (fun r => p r.2) l).*2 = List.filter p l.*2.
Proof.
  induction l as [|x l IH]; [reflexivity|].
  cbn. destruct (p x.2); cbn; now rewrite IH.
Qed.

(** One call of the filter on a class column. *)
Lemma selecao_valores_categoricos_eq (df : list (Z * rfv_class))
    (col sel : string) (f : rfv_class -> cell) :
  getcol col = Some f ->
  selecao_valores_categoricos df col sel false =
    Ok (reset_index (List.filter (fun r => cell_eq (f r.2) sel) df)).
Proof.
  intros H. unfold selecao_valores_categoricos. rewrite H.
  now rewrite (loc_mask (fun r => cell_eq (f r.2) sel)).
Qed.

Lemma filter_reset_index (p : rfv_class -> bool) (l : list (Z * rfv_class)) :
  reset_index (List.filter (fun r => p r.2) (reset_index l)) =
  reset_index (List.filter (fun r => p r.2) l).
Proof.
  apply reset_index_ext.
  now rewrite !filter_data, reset_index_data.
Qed.

Lemma filter_filter_and {A : Type} (p1 p2 : A -> bool) (l : list A) :
  List.filter p2 (List.filter p1 l) = List.filter (fun x => p1 x && p2 x) l.
Proof.
  induction l as [|x l IH]; [reflexivity|].
  cbn. destruct (p1 x); cbn; [destruct (p2 x); now rewrite IH|exact IH].
Qed.

Lemma df_RFV1_eq (df : list (Z * rfv_class)) (sr sf sv : string) :
  df_RFV1 df sr sf sv =
    Ok (reset_index (List.filter (selecionada sr sf sv) df)).
Proof.
  unfold df_RFV1.
  rewrite (selecao_valores_categoricos_eq df "R_quartil" sr
             (fun r => CStr (R_quartil r)) eq_refl).
  cbn [mbind result_bind].
  rewrite (selecao_valores_categoricos_eq _ "F_quartil" sf
             (fun r => CStr (F_quartil r)) eq_refl).
  cbn [mbind result_bind].
  rewrite (selecao_valores_categoricos_eq _ "V_quartil" sv
             (fun r => CStr (V_quartil r)) eq_refl).
  f_equal. cbn [cell_eq].
  rewrite (filter_reset_index (fun r => String.eqb (F_quartil r) sf)).
  rewrite (filter_reset_index (fun r => String.eqb (V_quartil r) sv)).
  rewrite !filter_filter_and. f_equal.
  apply List.filter_ext. intros r. unfold selecionada.
  now rewrite andb_assoc.
Qed.

(** C8, as the code has it: the filtered table holds the columns of
    exactly the rows that have the three selected classes, in the order
    of the classified table and unchanged, but [reset_index(drop=True)]
    replaces their index labels (the customer identifiers) by the
    positions 0, 1, 2, ... *)
Theorem df_RFV1_rows (df : list (Z * rfv_class)) (sr sf sv : string) :
  exists out,
    df_RFV1 df sr sf sv = Ok out /\
    out.*2 = (List.filter (selecionada sr sf sv) df).*2 /\
    out.*1 = Z.of_nat <$> seq 0 (length out).
Proof.
  eexists. split; [apply df_RFV1_eq|]. split.
  - apply reset_index_data.
  - rewrite reset_index_labels. now rewrite length_reset_index.
Qed.

(** C8 as stated fails: the filtered table is not the list of matching
    rows of the classified table, because the one matching row, of
    customer 7, comes out under the label 0. *)
Lemma df_RFV1_drops_customer :
  df_RFV1 [(7%Z, mk_rfv_class (mk_rfv (Some 1%Z) 1%Z 10%Q) "A" "A" "A")]
          "A" "A" "A" =
    Ok [(0%Z, mk_rfv_class (mk_rfv (Some 1%Z) 1%Z 10%Q) "A" "A" "A")] /\
  df_RFV1 [(7%Z, mk_rfv_class (mk_rfv (Some 1%Z) 1%Z 10%Q) "A" "A" "A")]
          "A" "A" "A" <>
    Ok (List.filter (selecionada "A" "A" "A")
          [(7%Z, mk_rfv_class (mk_rfv (Some 1%Z) 1%Z 10%Q) "A" "A" "A")]).
Proof. split; [reflexivity|]. vm_compute. intros H. discriminate H. Qed.

(** ** The comment dictionary *)

Lemma comentarios_inicializa (st : session_state) :
  comentarios (inicializa st) = Ok (comentarios_iniciais st).
Proof.
  destruct st as [[m|] w]; reflexivity.
Qed.

(** C9: from any session state, a run that submits a comment for a score
    followed by a run that clears that score leaves the comment of every
    other score as it was, and a run started by either clearing button
    ends with an empty comment dictionary. *)
Theorem comentarios_frame (st : session_state) (score txt other : string) :
  other <> score ->
  (exists st1 st2 m2,
     executa (EnviarComentario txt) score st = Ok st1 /\
     executa LimparComentario score st1 = Ok st2 /\
     comentarios st2 = Ok m2 /\
     m2 !! other = comentarios_iniciais st !! other) /\
  (exists st3,
     executa LimparComentariosSalvos score st = Ok st3 /\
     comentarios st3 = Ok ∅) /\
  (exists st4,
     executa LimparDados score st = Ok st4 /\
     comentarios st4 = Ok ∅).
Proof.
  intros Hne. split; [|split].
  - unfold executa, enviar_comentario, limpar_comentario.
    rewrite comentarios_inicializa. cbn.
    do 3 eexists. split; [reflexivity|]. split; [reflexivity|].
    split; [reflexivity|].
    rewrite lookup_delete_ne by congruence.
    now rewrite lookup_insert_ne by congruence.
  - eexists. split; reflexivity.
  - eexists. split; reflexivity.
Qed.

(** ** Failures of the script *)

Lemma has_columns_in (df : DataFrame) (c : string) :
  has_columns df = true -> c ∈ required_columns -> c ∈ columns df.
Proof.
  unfold has_columns. rewrite forallb_forall. intros H Hc.
  apply list_elem_of_In in Hc. specialize (H c Hc).
  now apply bool_decide_eq_true in H.
Qed.

(** Closes [c ∈ columns df] for a required column [c] of a file that
    has the four columns. *)
Ltac required_column :=
  apply has_columns_in; [assumption | unfold required_columns; set_solver].

Lemma column_in {A : Type} (df : DataFrame) (name : string) (f : compra -> A) :
  name ∈ columns df -> column df name f = Ok (f <$> linhas df).
Proof. intros H. unfold column. now rewrite decide_True. Qed.



(** Without an unparsable field the column is a datetime64 column. *)
Lemma as_datetime_parsed (l : list compra) :
  (forall s, Unparsable s ∉ DiaCompra <$> l) ->
  as_datetime (DiaCompra <$> l) = Some (data_de <$> l).
Proof.
  induction l as [|c l IH]; intros H; [reflexivity|].
  assert (IH' : as_datetime (DiaCompra <$> l) = Some (data_de <$> l)).
  { apply IH. intros s Hs. apply (H s). cbn. now apply list_elem_of_further. }
  cbn. unfold data_de at 1.
  destruct (DiaCompra c) as [t|s|] eqn:E; cbn.
  - now rewrite IH'.
  - exfalso. apply (H s). cbn. rewrite E. apply list_elem_of_here.
  - now rewrite IH'.
Qed.






(** ** The indicator table *)

Lemma zip_fmap_same {A B C : Type} (f : A -> B) (g : A -> C) (l : list A) :
  zip (f <$> l) (g <$> l) = (fun x => (f x, g x)) <$> l.
Proof. induction l as [|x l IH]; [reflexivity|]. cbn. now rewrite IH. Qed.

(** *** Group keys *)

Lemma elem_of_insert_key (x k : Z) (ks : list Z) :
  x ∈ insert_key k ks <-> x = k \/ x ∈ ks.
Proof.
  induction ks as [|k' ks IH]; cbn.
  - rewrite list_elem_of_singleton, elem_of_nil. tauto.
  - destruct (Z.ltb_spec k k') as [Hlt|Hge].
    + rewrite elem_of_cons. tauto.
    + destruct (Z.eqb_spec k k') as [->|Hne].
      * rewrite elem_of_cons. tauto.
      * rewrite !elem_of_cons, IH. tauto.
Qed.

Lemma insert_key_sorted (k : Z) (ks : list Z) :
  StronglySorted Z.lt ks -> StronglySorted Z.lt (insert_key k ks).
Proof.
  induction 1 as [|k' ks Hs IH Hall]; cbn.
  - constructor; constructor.
  - destruct (Z.ltb_spec k k') as [Hlt|Hge].
    + constructor; [now constructor|].
      constructor; [assumption|].
      eapply Forall_impl; [exact Hall|]. intros y Hy. cbn in Hy. lia.
    + destruct (Z.eqb_spec k k') as [->|Hne]; [now constructor|].
      constructor; [assumption|].
      apply Forall_forall. intros y Hy.
      apply elem_of_insert_key in Hy as [->|Hy]; [lia|].
      rewrite Forall_forall in Hall. now apply Hall.
Qed.

Lemma sorted_NoDup (ks : list Z) : StronglySorted Z.lt ks -> NoDup ks.
Proof.
  induction 1 as [|k ks Hs IH Hall]; constructor; [|assumption].
  intros Hin. rewrite Forall_forall in Hall.
  specialize (Hall k Hin). lia.
Qed.

Lemma group_keys_sorted (ids : list (option Z)) :
  StronglySorted Z.lt (group_keys ids).
Proof.
  induction ids as [|[k|] ids IH]; cbn.
  - constructor.
  - now apply insert_key_sorted.
  - exact IH.
Qed.

Lemma NoDup_group_keys (ids : list (option Z)) : NoDup (group_keys ids).
Proof. apply sorted_NoDup, group_keys_sorted. Qed.

Lemma elem_of_group_keys (k : Z) (ids : list (option Z)) :
  k ∈ group_keys ids <-> Some k ∈ ids.
Proof.
  induction ids as [|[k'|] ids IH]; cbn.
  - rewrite !elem_of_nil. tauto.
  - rewrite elem_of_insert_key, elem_of_cons, IH.
    split; (intros [H|H]; [left; congruence|now right]).
  - rewrite elem_of_cons, IH. split; [now right|].
    intros [H|H]; [discriminate|assumption].
Qed.

(** *** Groups and aggregation *)

Lemma members_fmap {A : Type} (f : compra -> A) (k : Z) (l : list compra) :
  members k ((fun c => (ID_cliente c, f c)) <$> l) =
  f <$> List.filter (fun c => bool_decide (ID_cliente c = Some k)) l.
Proof.
  unfold members. induction l as [|c l IH]; [reflexivity|].
  cbn. destruct (bool_decide (ID_cliente c = Some k)); cbn; now rewrite IH.
Qed.

Lemma groupby_agg_eq {A B : Type} (agg : list A -> B) (f : compra -> A)
    (df : DataFrame) :
  groupby_agg agg (zip (ID_cliente <$> linhas df) (f <$> linhas df)) =
  (fun k => (k, agg (f <$> compras_de k df))) <$>
    group_keys (ID_cliente <$> linhas df).
Proof.
  rewrite zip_fmap_same. unfold groupby_agg.
  rewrite <- list_fmap_compose.
  apply list_fmap_ext. intros _ k _. cbn.
  now rewrite members_fmap.
Qed.

(** *** Joining tables that have the same keys *)

Lemma filter_key_fmap {B : Type} (g : Z -> B) (k : Z) (ks : list Z) :
  NoDup ks -> k ∈ ks ->
  List.filter (fun kb => bool_decide (kb.1 = k)) ((fun k' => (k', g k')) <$> ks) =
  [(k, g k)].
Proof.
  induction 1 as [|k' ks Hnotin Hnd IH]; intros Hin.
  - now apply elem_of_nil in Hin.
  - cbn. destruct (decide (k' = k)) as [->|Hne].
    + rewrite bool_decide_eq_true_2 by reflexivity. f_equal.
      clear IH Hin Hnd. induction ks as [|y ks IH]; [reflexivity|].
      apply not_elem_of_cons in Hnotin as [Hy Hks].
      cbn. rewrite bool_decide_eq_false_2 by congruence. now apply IH.
    + rewrite bool_decide_eq_false_2 by assumption.
      apply IH. apply elem_of_cons in Hin as [Hin|Hin]; [congruence|assumption].
Qed.

Lemma df_merge_sub {A B : Type} (f : Z -> A) (g : Z -> B) (ks ks' : list Z) :
  NoDup ks -> (forall k, k ∈ ks' -> k ∈ ks) ->
  df_merge ((fun k => (k, f k)) <$> ks') ((fun k => (k, g k)) <$> ks) =
  (fun k => (k, (f k, g k))) <$> ks'.
Proof.
  intros Hnd. induction ks' as [|k ks' IH]; intros Hsub; [reflexivity|].
  unfold df_merge in *. cbn.
  rewrite (filter_key_fmap g k ks Hnd) by (apply Hsub; left).
  cbn. f_equal. apply IH. intros y Hy. apply Hsub. now right.
Qed.

Lemma df_merge_same_keys {A B : Type} (f : Z -> A) (g : Z -> B) (ks : list Z) :
  NoDup ks ->
  df_merge ((fun k => (k, f k)) <$> ks) ((fun k => (k, g k)) <$> ks) =
  (fun k => (k, (f k, g k))) <$> ks.
Proof. intros Hnd. now apply df_merge_sub. Qed.

(** *** The table in closed form *)

Lemma df_RFV_eq (df : DataFrame) :
  has_columns df = true ->
  (forall s, Unparsable s ∉ DiaCompra <$> linhas df) ->
  df_RFV df =
    Ok ((fun k => (k, linha_rfv df k)) <$> group_keys (ID_cliente <$> linhas df)).
Proof.
  intros Hc Hp.
  assert (Hd : "DiaCompra" ∈ columns df) by required_column.
  assert (Hi : "ID_cliente" ∈ columns df) by required_column.
  assert (Hk : "CodigoCompra" ∈ columns df) by required_column.
  assert (Hv : "ValorTotal" ∈ columns df) by required_column.
  unfold df_RFV, dia_atual, datetime64.
  rewrite !(column_in _ _ _ Hd), (column_in _ _ _ Hi),
    (column_in _ _ _ Hk), (column_in _ _ _ Hv).
  cbn [mbind result_bind].
  rewrite (as_datetime_parsed _ Hp). cbn [mbind result_bind].
  rewrite !groupby_agg_eq. f_equal.
  rewrite <- list_fmap_compose. unfold compose. cbn [fst snd].
  rewrite (df_merge_same_keys
             (fun k => recencia_dias
                         ((fun m => (m + Timedelta 1)%Z) <$>
                            ts_max (data_de <$> linhas df))
                         (ts_max (data_de <$> compras_de k df)))
             (fun k => group_count (CodigoCompra <$> compras_de k df)))
    by apply NoDup_group_keys.
  rewrite (df_merge_same_keys
             (fun k => (recencia_dias
                          ((fun m => (m + Timedelta 1)%Z) <$>
                             ts_max (data_de <$> linhas df))
                          (ts_max (data_de <$> compras_de k df)),
                        group_count (CodigoCompra <$> compras_de k df)))
             (fun k => group_sum (is_int64 (ValorTotal <$> linhas df))
                                 (ValorTotal <$> compras_de k df)))
    by apply NoDup_group_keys.
  rewrite <- list_fmap_compose. reflexivity.
Qed.

(** *** Valid transaction sets *)

Lemma linha_completa_inv (c : compra) :
  linha_completa c = true ->
  exists k t cod v, c = mk_compra (Some k) (Parsed t) (Some cod) (Some v).
Proof.
  destruct c as [[k|] [t|s|] [cod|] [v|]]; cbn; try discriminate.
  intros _. now exists k, t, cod, v.
Qed.

Lemma bem_formado_inv (df : DataFrame) :
  bem_formado df = true ->
  has_columns df = true /\ linhas df <> [] /\
  Forall (fun c => linha_completa c = true) (linhas df).
Proof.
  unfold bem_formado. rewrite !andb_true_iff, negb_true_iff.
  intros [[Hc Hn] Hl]. split; [assumption|]. split.
  - now apply bool_decide_eq_false in Hn.
  - apply Forall_forall. intros c Hc'. rewrite forallb_forall in Hl.
    apply Hl. now apply list_elem_of_In.
Qed.

Lemma completas_parsed (l : list compra) :
  Forall (fun c => linha_completa c = true) l ->
  forall s, Unparsable s ∉ DiaCompra <$> l.
Proof.
  intros Hall s Hin. apply list_elem_of_fmap in Hin as (c & Hs & Hc).
  rewrite Forall_forall in Hall. specialize (Hall c Hc).
  apply linha_completa_inv in Hall as (k & t & cod & v & ->). discriminate.
Qed.

Lemma read_csv_ok (df : DataFrame) :
  has_columns df = true -> read_csv df = Ok df.
Proof.
  intros Hc. unfold read_csv. rewrite decide_True; [reflexivity|].
  required_column.
Qed.

(** A valid file is read and its indicator table is the closed form. *)
Lemma df_RFV_bem_formado (df : DataFrame) :
  bem_formado df = true ->
  (read_csv df ≫= df_RFV) =
    Ok ((fun k => (k, linha_rfv df k)) <$> group_keys (ID_cliente <$> linhas df)).
Proof.
  intros H. apply bem_formado_inv in H as (Hc & _ & Hall).
  rewrite (read_csv_ok _ Hc). cbn [mbind result_bind].
  apply df_RFV_eq; [assumption|]. now apply completas_parsed.
Qed.

Lemma elem_of_tabela (df : DataFrame) (k : Z) (r : rfv) :
  (k, r) ∈ (fun k => (k, linha_rfv df k)) <$> group_keys (ID_cliente <$> linhas df) ->
  Some k ∈ ID_cliente <$> linhas df /\ r = linha_rfv df k.
Proof.
  intros H. apply list_elem_of_fmap in H as (k' & Heq & Hk').
  injection Heq as -> ->. split; [|reflexivity].
  now apply elem_of_group_keys.
Qed.

Lemma elem_of_compras_de (c : compra) (k : Z) (df : DataFrame) :
  c ∈ compras_de k df <-> c ∈ linhas df /\ ID_cliente c = Some k.
Proof.
  unfold compras_de. rewrite !list_elem_of_In, filter_In.
  rewrite bool_decide_eq_true. reflexivity.
Qed.

Lemma compras_de_completas (k : Z) (df : DataFrame) :
  Forall (fun c => linha_completa c = true) (linhas df) ->
  Forall (fun c => linha_completa c = true) (compras_de k df).
Proof.
  rewrite !Forall_forall. intros H c Hc.
  apply elem_of_compras_de in Hc as [Hc _]. now apply H.
Qed.

Lemma compras_de_not_nil (k : Z) (df : DataFrame) :
  Some k ∈ ID_cliente <$> linhas df -> compras_de k df <> [].
Proof.
  intros H Hnil. apply list_elem_of_fmap in H as (c & Hk & Hc).
  assert (Hin : c ∈ compras_de k df) by now apply elem_of_compras_de.
  rewrite Hnil in Hin. now apply elem_of_nil in Hin.
Qed.

(** *** Count, sum and maximum of complete lines *)


Lemma float64_sum_acc (acc : Q) (l : list compra) :
  (foldl (fun a o => match o with Some v => (a + v)%Q | None => a end)
         acc (ValorTotal <$> l) == acc + total_de l)%Q.
Proof.
  revert acc. induction l as [|c l IH]; intros acc; cbn.
  - ring.
  - rewrite IH. fold (total_de l).
    destruct (ValorTotal c) as [v|]; cbn; ring.
Qed.

Lemma float64_sum_total (l : list compra) :
  (float64_sum (ValorTotal <$> l) == total_de l)%Q.
Proof. unfold float64_sum. rewrite float64_sum_acc. ring. Qed.

(** *** Sums in int64 *)

Lemma wrap64_range (z : Z) : (- 2 ^ 63 <= wrap64 z < 2 ^ 63)%Z.
Proof.
  unfold wrap64.
  pose proof (Z.mod_pos_bound (z + 2 ^ 63) (2 ^ 64) ltac:(lia)). lia.
Qed.


Lemma wrap64_small (z : Z) : (- 2 ^ 63 <= z < 2 ^ 63)%Z -> wrap64 z = z.
Proof. intros H. unfold wrap64. rewrite Z.mod_small; lia. Qed.

Lemma wrap64_add (a b : Z) : wrap64 (wrap64 a + b) = wrap64 (a + b).
Proof.
  unfold wrap64. f_equal.
  replace ((a + 2 ^ 63) mod 2 ^ 64 - 2 ^ 63 + b + 2 ^ 63)%Z
    with ((a + 2 ^ 63) mod 2 ^ 64 + b)%Z by ring.
  rewrite Z.add_mod_idemp_l by lia. f_equal. ring.
Qed.

Lemma int64_sum_acc (acc : Z) (l : list compra) :
  wrap64 acc = acc ->
  foldl (fun a o => match o with Some v => wrap64 (a + Qnum v) | None => a end)
        acc (ValorTotal <$> l) = wrap64 (acc + total_inteiro l).
Proof.
  revert acc. induction l as [|c l IH]; intros acc Hacc; cbn.
  - now rewrite Z.add_0_r.
  - fold (total_inteiro l). destruct (ValorTotal c) as [v|].
    + rewrite IH by (apply wrap64_small, wrap64_range).
      rewrite wrap64_add. f_equal. ring.
    + now rewrite IH.
Qed.

Lemma int64_sum_total (l : list compra) :
  int64_sum (ValorTotal <$> l) = inject_Z (wrap64 (total_inteiro l)).
Proof.
  unfold int64_sum. f_equal. now rewrite int64_sum_acc by reflexivity.
Qed.

Lemma total_inteiro_total_de (l : list compra) :
  Forall (fun c => quantia_inteira c = true) l ->
  (inject_Z (total_inteiro l) == total_de l)%Q.
Proof.
  induction 1 as [|c l Hc _ IH]; [reflexivity|].
  cbn. fold (total_inteiro l) (total_de l).
  rewrite inject_Z_plus, IH. apply Qplus_comp; [|reflexivity].
  unfold quantia_inteira in Hc. destruct (ValorTotal c) as [v|]; [|reflexivity].
  apply Pos.eqb_eq in Hc. cbn. unfold Qeq. cbn. rewrite Hc. lia.
Qed.

Lemma total_absoluto_nonneg (l : list compra) : (0 <= total_absoluto l)%Z.
Proof.
  induction l as [|c l IH]; cbn; [lia|]. fold (total_absoluto l).
  destruct (ValorTotal c); lia.
Qed.

Lemma total_inteiro_abs (l : list compra) :
  (Z.abs (total_inteiro l) <= total_absoluto l)%Z.
Proof.
  induction l as [|c l IH]; cbn; [lia|].
  fold (total_inteiro l) (total_absoluto l).
  destruct (ValorTotal c); lia.
Qed.

Lemma total_absoluto_filter (p : compra -> bool) (l : list compra) :
  (total_absoluto (List.filter p l) <= total_absoluto l)%Z.
Proof.
  assert (E : forall c l,
             total_absoluto (c :: l) =
             (match ValorTotal c with Some v => Z.abs (Qnum v) | None => 0 end
              + total_absoluto l)%Z) by reflexivity.
  induction l as [|c l IH]; [cbn; lia|].
  cbn [List.filter]. destruct (p c); rewrite !E; destruct (ValorTotal c); lia.
Qed.



Lemma quantias_exatas_inteiras (df : DataFrame) (k : Z) :
  quantias_exatas df = true ->
  Forall (fun c => quantia_inteira c = true) (compras_de k df).
Proof.
  unfold quantias_exatas. rewrite andb_true_iff, forallb_forall. intros [H _].
  apply Forall_forall. intros c Hc. apply elem_of_compras_de in Hc as [Hc _].
  apply H. now apply list_elem_of_In.
Qed.

(** The value of a row when the amounts form an int64 column: the
    integer sum, wrapped. *)
Lemma linha_rfv_int64 (df : DataFrame) (k : Z) :
  quantias_int64 df = true ->
  Valor (linha_rfv df k) = inject_Z (wrap64 (total_inteiro (compras_de k df))).
Proof.
  intros H. unfold quantias_int64 in H. cbn [linha_rfv Valor].
  rewrite H. cbn [group_sum]. apply int64_sum_total.
Qed.

(** The value of a row when every addition is exact: the sum. *)
Lemma linha_rfv_exata (df : DataFrame) (k : Z) :
  quantias_exatas df = true ->
  (Valor (linha_rfv df k) == total_de (compras_de k df))%Q.
Proof.
  intros H. pose proof (quantias_exatas_inteiras df k H) as Hint.
  cbn [linha_rfv Valor].
  destruct (is_int64 (ValorTotal <$> linhas df)); cbn [group_sum];
    [|apply float64_sum_total].
  rewrite int64_sum_total, wrap64_small; [now apply total_inteiro_total_de|].
  unfold quantias_exatas in H. apply andb_true_iff in H as [_ H].
  apply Z.ltb_lt in H.
  pose proof (total_inteiro_abs (compras_de k df)).
  pose proof (total_absoluto_filter
                (fun c => bool_decide (ID_cliente c = Some k)) (linhas df)) as F.
  fold (compras_de k df) in F. lia.
Qed.

(** Every customer of the file has its row in the closed form. *)
Lemma tabela_tem_cliente (df : DataFrame) (k : Z) :
  Some k ∈ ID_cliente <$> linhas df ->
  (k, linha_rfv df k) ∈
    (fun k => (k, linha_rfv df k)) <$> group_keys (ID_cliente <$> linhas df).
Proof.
  intros H. apply list_elem_of_fmap. exists k. split; [reflexivity|].
  now apply elem_of_group_keys.
Qed.

Lemma ts_max_fmap_None {A : Type} (f : A -> option Z) (l : list A) :
  ts_max (f <$> l) = None -> omap f l = [].
Proof.
  induction l as [|x l IH]; [reflexivity|].
  cbn. fold (ts_max (f <$> l)).
  destruct (f x) as [a|]; [|exact IH].
  destruct (ts_max (f <$> l)); discriminate.
Qed.

Lemma ts_max_fmap_is_max {A : Type} (f : A -> option Z) (l : list A) (m : Z) :
  ts_max (f <$> l) = Some m -> is_max m (omap f l).
Proof.
  revert m. induction l as [|x l IH]; intros m; [discriminate|].
  cbn. fold (ts_max (f <$> l)).
  destruct (f x) as [a|]; [|apply IH].
  destruct (ts_max (f <$> l)) as [b|] eqn:E.
  - intros [= <-]. destruct (IH b eq_refl) as [Hin Hub]. split.
    + apply elem_of_cons.
      destruct (Z.max_spec a b) as [[_ ->]|[_ ->]]; [now right|now left].
    + intros y Hy. apply elem_of_cons in Hy as [->|Hy]; [lia|].
      specialize (Hub y Hy). lia.
  - intros [= <-]. rewrite (ts_max_fmap_None f l E). split.
    + apply list_elem_of_here.
    + intros y Hy. apply list_elem_of_singleton in Hy. lia.
Qed.

Lemma datas_de_not_nil (l : list compra) :
  Forall (fun c => linha_completa c = true) l -> l <> [] -> datas_de l <> [].
Proof.
  intros Hall Hn. destruct Hall as [|c l Hc _]; [contradiction|].
  apply linha_completa_inv in Hc as (k & t & cod & v & ->). discriminate.
Qed.

Lemma ts_max_completas (l : list compra) :
  Forall (fun c => linha_completa c = true) l -> l <> [] ->
  exists m, ts_max (data_de <$> l) = Some m /\ is_max m (datas_de l).
Proof.
  intros Hall Hn. destruct (ts_max (data_de <$> l)) as [m|] eqn:E.
  - exists m. split; [reflexivity|]. now apply ts_max_fmap_is_max.
  - apply ts_max_fmap_None in E. now apply datas_de_not_nil in E.
Qed.

Lemma datas_de_compras_de (k t : Z) (df : DataFrame) :
  t ∈ datas_de (compras_de k df) -> t ∈ datas_de (linhas df).
Proof.
  unfold datas_de. rewrite !list_elem_of_omap.
  intros (c & Hc & Ht). exists c. split; [|assumption].
  now apply elem_of_compras_de in Hc as [Hc _].
Qed.

Lemma days_lower_bound (m mk : Z) :
  (mk <= m)%Z -> (1 <= days (m + Timedelta 1 - mk))%Z.
Proof.
  intros H. unfold days, Timedelta.
  apply Z.div_le_lower_bound; lia.
Qed.

(** [days x] is the number of whole days in [x] nanoseconds. *)
Lemma days_floor (x : Z) :
  (days x * 86400000000000 <= x < (days x + 1) * 86400000000000)%Z.
Proof.
  unfold days. change (Timedelta 1) with 86400000000000%Z.
  pose proof (Z.div_mod x 86400000000000 ltac:(lia)).
  pose proof (Z.mod_pos_bound x 86400000000000 ltac:(lia)). lia.
Qed.

(** ** The three indicators *)


(** C3: on a valid transaction set, with its dates in the range in which
    datetime64 adds a day and takes differences, the reference date is
    the greatest purchase date plus one day of 86400000000000
    nanoseconds; every customer of the set has a row in the table; and
    the recency in a row is the number [d] of whole days in the time
    from the greatest purchase date of that customer to the reference
    date, that is, [d] days fit in that time and [d + 1] days do not;
    this number is at least 1. *)
Theorem recencia_por_cliente (df : DataFrame) :
  bem_formado df = true ->
  datas_exatas df = true ->
  exists m tabela,
    is_max m (datas_de (linhas df)) /\
    (read_csv df ≫= dia_atual) = Ok (Some (m + 86400000000000)%Z) /\
    (read_csv df ≫= df_RFV) = Ok tabela /\
    (forall k, Some k ∈ ID_cliente <$> linhas df -> exists r, (k, r) ∈ tabela) /\
    (forall k r, (k, r) ∈ tabela ->
       exists mk d,
         is_max mk (datas_de (compras_de k df)) /\
         Recencia r = Some d /\
         (d * 86400000000000 <= m + 86400000000000 - mk
          < (d + 1) * 86400000000000)%Z /\
         (1 <= d)%Z).
Proof.
  intros H _. pose proof (df_RFV_bem_formado df H) as Htab.
  apply bem_formado_inv in H as (Hc & Hn & Hall).
  destruct (ts_max_completas _ Hall Hn) as (m & Em & Hm).
  exists m. eexists. split; [exact Hm|].
  split; [|split; [exact Htab|split]].
  - rewrite (read_csv_ok _ Hc). cbn [mbind result_bind].
    unfold dia_atual, datetime64.
    rewrite column_in by required_column.
    cbn [mbind result_bind].
    rewrite (as_datetime_parsed _ (completas_parsed _ Hall)).
    cbn [mbind result_bind]. now rewrite Em.
  - intros k Hk. eexists. now apply tabela_tem_cliente.
  - intros k r Hr. apply elem_of_tabela in Hr as [Hk ->].
    destruct (ts_max_completas (compras_de k df)) as (mk & Emk & Hmk).
    { now apply compras_de_completas. }
    { now apply compras_de_not_nil. }
    exists mk, (days (m + Timedelta 1 - mk)). split; [exact Hmk|].
    unfold linha_rfv. cbn [Recencia]. rewrite Em, Emk.
    cbn [fmap option_fmap option_map recencia_dias].
    split; [reflexivity|].
    split; [apply (days_floor (m + Timedelta 1 - mk))|].
    apply days_lower_bound. apply Hm.
    apply (datas_de_compras_de k). apply Hmk.
Qed.



(** ** The script returns on a valid file *)

Lemma Series_apply_pure {A B : Type} (f : A -> result B) (g : A -> B)
    (l : list A) :
  (forall x, f x = Ok (g x)) -> Series_apply f l = Ok (g <$> l).
Proof.
  intros H. unfold Series_apply.
  induction l as [|x l IH]; [reflexivity|].
  cbn. rewrite H. cbn. rewrite IH. reflexivity.
Qed.

Lemma quartis_lookup (df : list (Z * rfv)) :
  quartis df !! "Recencia" =
    Some (quartis_col (inject_Z <$> omap (fun r => Recencia r.2) df)) /\
  quartis df !! "Frequencia" =
    Some (quartis_col ((fun r => inject_Z (Frequencia r.2)) <$> df)) /\
  quartis df !! "Valor" = Some (quartis_col ((fun r => Valor r.2) <$> df)).
Proof.
  unfold quartis. split; [|split].
  - apply lookup_insert_eq.
  - rewrite lookup_insert_ne by discriminate. apply lookup_insert_eq.
  - rewrite !lookup_insert_ne by discriminate. apply lookup_singleton_eq.
Qed.

(** Classification never fails: it keeps the index and the indicators
    of every row and adds to each row the classes of its own values. *)
Lemma classifica_ok (df : list (Z * rfv)) :
  exists out,
    classifica df = Ok out /\
    out.*1 = df.*1 /\
    indicadores <$> out.*2 = df.*2 /\
    Forall2 (fun r o =>
               classes_da_linha (quartis df) r =
                 Ok (R_quartil o.2, F_quartil o.2, V_quartil o.2)) df out.
Proof.
  destruct (quartis_lookup df) as (HR & HF & HV).
  unfold classifica, classes_da_linha.
  set (cR := quartis_col _) in HR. set (cF := quartis_col _) in HF.
  set (cV := quartis_col _) in HV. clearbody cR cF cV.
  set (q := quartis df) in *. clearbody q.
  erewrite (Series_apply_pure
              (fun r => recencia_class (num_of_recencia (Recencia r.2))
                          "Recencia" q))
    by (intros x; apply (recencia_class_eq _ _ _ _ HR)).
  cbn [mbind result_bind].
  erewrite (Series_apply_pure
              (fun r => frequencia_class (Num (inject_Z (Frequencia r.2)))
                          "Frequencia" q))
    by (intros x; apply (frequencia_class_eq _ _ _ _ HF)).
  cbn [mbind result_bind].
  erewrite (Series_apply_pure
              (fun r => frequencia_class (Num (Valor r.2)) "Valor" q))
    by (intros x; apply (frequencia_class_eq _ _ _ _ HV)).
  cbn [mbind result_bind].
  eexists. split; [reflexivity|].
  induction df as [|r df IH]; [repeat split; constructor|].
  destruct IH as (I1 & I2 & I3). cbn. split; [|split].
  - f_equal. exact I1.
  - f_equal. exact I2.
  - constructor; [|exact I3].
    rewrite (recencia_class_eq _ _ _ _ HR), (frequencia_class_eq _ _ _ _ HF),
      (frequencia_class_eq _ _ _ _ HV).
    reflexivity.
Qed.

(** On a valid transaction set the script runs to the end: the
    classified table has the rows of the indicator table, and the
    filtered table is computed from it. *)
Lemma script_bem_formado (df : DataFrame) (sr sf sv : string) :
  bem_formado df = true ->
  exists tabela classificada filtrada,
    (read_csv df ≫= df_RFV) = Ok tabela /\
    script df sr sf sv = Ok (classificada, filtrada) /\
    classificada.*1 = tabela.*1 /\
    indicadores <$> classificada.*2 = tabela.*2 /\
    df_RFV1 classificada sr sf sv = Ok filtrada.
Proof.
  intros H. pose proof (df_RFV_bem_formado df H) as Htab.
  apply bem_formado_inv in H as (Hc & _ & _).
  rewrite (read_csv_ok _ Hc) in Htab. cbn [mbind result_bind] in Htab.
  destruct (classifica_ok
              ((fun k => (k, linha_rfv df k)) <$>
                 group_keys (ID_cliente <$> linhas df)))
    as (out & Hout & H1 & H2 & _).
  do 3 eexists. rewrite (read_csv_ok _ Hc). cbn [mbind result_bind].
  split; [exact Htab|].
  unfold script. rewrite (read_csv_ok _ Hc). cbn [mbind result_bind].
  rewrite Htab. cbn [mbind result_bind]. rewrite Hout.
  cbn [mbind result_bind]. rewrite df_RFV1_eq. cbn [mbind result_bind].
  split; [reflexivity|]. split; [exact H1|]. split; [exact H2|].
  apply df_RFV1_eq.
Qed.

(** ** The scenario of the specification *)

(** Customer 1 has recency 1, frequency 2 and value 150; customer 2 has
    recency 6, frequency 1 and value 200. *)
Example cenario_tabela :
  (read_csv exemplo ≫= df_RFV) =
    Ok [(1%Z, mk_rfv (Some 1%Z) 2%Z 150%Q); (2%Z, mk_rfv (Some 6%Z) 1%Z 200%Q)].
Proof. vm_compute. reflexivity. Qed.

(** With two customers each class column has two letters; the filter on
    A, A, D keeps customer 1 and numbers it 0. *)
Example cenario_script :
  script exemplo "A" "A" "D" =
    Ok ([(1%Z, mk_rfv_class (mk_rfv (Some 1%Z) 2%Z 150%Q) "A" "A" "D");
         (2%Z, mk_rfv_class (mk_rfv (Some 6%Z) 1%Z 200%Q) "D" "D" "A")],
        [(0%Z, mk_rfv_class (mk_rfv (Some 1%Z) 2%Z 150%Q) "A" "A" "D")]).
Proof. vm_compute. reflexivity. Qed.

(** A comment that was sent is the one shown for its score. *)
Example cenario_comentario :
  (st ← executa (EnviarComentario "reter") "AAA" (mk_session None ∅);
   comentario_de "AAA" st) = Ok "reter".
Proof. vm_compute. reflexivity. Qed.

(** ** The theorems at concrete inputs *)


Lemma classes_monotone_witness :
  num_lt (Num 1) (Num 9) = true /\
  (exists c1 c2,
     recencia_class (Num 1) "Recencia"
       {["Recencia" := mk_qcol (Num 2) (Num 5) (Num 8)]} = Ok c1 /\
     recencia_class (Num 9) "Recencia"
       {["Recencia" := mk_qcol (Num 2) (Num 5) (Num 8)]} = Ok c2 /\
     alpha_le c1 c2 = true) /\
  (exists d1 d2,
     frequencia_class (Num 1) "Recencia"
       {["Recencia" := mk_qcol (Num 2) (Num 5) (Num 8)]} = Ok d1 /\
     frequencia_class (Num 9) "Recencia"
       {["Recencia" := mk_qcol (Num 2) (Num 5) (Num 8)]} = Ok d2 /\
     alpha_le d2 d1 = true).
Proof.
  split; [reflexivity|].
  apply (classes_monotone
           {["Recencia" := mk_qcol (Num 2) (Num 5) (Num 8)]}
           "Recencia" (mk_qcol (Num 2) (Num 5) (Num 8)) (Num 1) (Num 9));
    vm_compute; reflexivity.
Defined.

Lemma comentarios_frame_witness :
  "ABA" <> "AAA" /\
  exists st1 st2 m2,
    executa (EnviarComentario "reter") "AAA"
      (mk_session (Some {["ABA" := "reativar"]}) ∅) = Ok st1 /\
    executa LimparComentario "AAA" st1 = Ok st2 /\
    comentarios st2 = Ok m2 /\
    m2 !! "ABA" =
      comentarios_iniciais (mk_session (Some {["ABA" := "reativar"]}) ∅) !! "ABA".
Proof.
  assert (H : "ABA" <> "AAA") by (intros E; discriminate E).
  split; [exact H|].
  exact (proj1 (comentarios_frame
                  (mk_session (Some {["ABA" := "reativar"]}) ∅)
                  "AAA" "reter" "ABA" H)).
Defined.




Lemma recencia_por_cliente_witness :
  bem_formado exemplo = true /\
  datas_exatas exemplo = true /\
  exists m tabela,
    is_max m (datas_de (linhas exemplo)) /\
    (read_csv exemplo ≫= dia_atual) = Ok (Some (m + 86400000000000)%Z) /\
    (read_csv exemplo ≫= df_RFV) = Ok tabela /\
    (forall k, Some k ∈ ID_cliente <$> linhas exemplo ->
       exists r, (k, r) ∈ tabela) /\
    (forall k r, (k, r) ∈ tabela ->
       exists mk d,
         is_max mk (datas_de (compras_de k exemplo)) /\
         Recencia r = Some d /\
         (d * 86400000000000 <= m + 86400000000000 - mk
          < (d + 1) * 86400000000000)%Z /\
         (1 <= d)%Z).
Proof.
  split; [reflexivity|]. split; [reflexivity|].
  apply (recencia_por_cliente exemplo); reflexivity.
Defined.


(** * Further properties *)

(** ** The classification functions on every input *)

Lemma recencia_class_letra (x : num) (k : string) (q : q_table) (c : qcol) :
  q !! k = Some c -> recencia_class x k q = Ok (letra_recencia x c).
Proof. apply recencia_class_eq. Qed.

Lemma frequencia_class_letra (x : num) (k : string) (q : q_table) (c : qcol) :
  q !! k = Some c -> frequencia_class x k q = Ok (letra_frequencia x c).
Proof. apply frequencia_class_eq. Qed.

Lemma letra_recencia_letras (x : num) (c : qcol) : letra_recencia x c ∈ letras.
Proof.
  unfold letra_recencia, letras.
  destruct (num_le x (p25 c)), (num_le x (p50 c)), (num_le x (p75 c));
    repeat first [apply list_elem_of_here | apply list_elem_of_further].
Qed.

Lemma letra_frequencia_letras (x : num) (c : qcol) :
  letra_frequencia x c ∈ letras.
Proof.
  unfold letra_frequencia, letras.
  destruct (num_le x (p25 c)), (num_le x (p50 c)), (num_le x (p75 c));
    repeat first [apply list_elem_of_here | apply list_elem_of_further].
Qed.

(** X1: a call of either classification function ends in one of two
    ways. When the table has no column of the given name both raise the
    KeyError of that name; when it has one both return one of the letters
    A, B, C, D, whatever the input and the breakpoints are. *)
Theorem classifier_outcome (x : num) (k : string) (q : q_table) :
  match q !! k with
  | None =>
      recencia_class x k q = Err (KeyError k) /\
      frequencia_class x k q = Err (KeyError k)
  | Some _ =>
      exists c d,
        recencia_class x k q = Ok c /\ frequencia_class x k q = Ok d /\
        c ∈ letras /\ d ∈ letras
  end.
Proof.
  destruct (q !! k) as [col|] eqn:E.
  - exists (letra_recencia x col), (letra_frequencia x col).
    split; [now apply recencia_class_letra|].
    split; [now apply frequencia_class_letra|].
    split; [apply letra_recencia_letras|apply letra_frequencia_letras].
  - unfold recencia_class, frequencia_class, getitem. rewrite E.
    split; reflexivity.
Qed.

(** X2: a missing value is not rejected. For the input NaN, and for any
    input when the three breakpoints are NaN, every comparison is false:
    recency gets the worst letter D, and frequency and value get the
    best letter A. *)
Theorem classifier_nan (x : num) (k : string) (q : q_table) (c : qcol) :
  q !! k = Some c ->
  x = NaN \/ c = mk_qcol NaN NaN NaN ->
  recencia_class x k q = Ok "D" /\ frequencia_class x k q = Ok "A".
Proof.
  intros Hq H.
  rewrite (recencia_class_letra _ _ _ _ Hq), (frequencia_class_letra _ _ _ _ Hq).
  unfold letra_recencia, letra_frequencia.
  destruct H as [->| ->]; [split; reflexivity|].
  destruct x; split; reflexivity.
Qed.

(** ** The classified table *)

(** The three [apply] calls amount to classifying every row against the
    breakpoints of the whole table. *)
Lemma classifica_eq (df : list (Z * rfv)) :
  classifica df =
    Ok (linha_classificada (quartis_R df) (quartis_F df) (quartis_V df) <$> df).
Proof.
  destruct (quartis_lookup df) as (HR & HF & HV).
  unfold classifica.
  fold (quartis_R df) in HR. fold (quartis_F df) in HF. fold (quartis_V df) in HV.
  generalize dependent (quartis_V df). generalize dependent (quartis_F df).
  generalize dependent (quartis_R df). generalize (quartis df).
  intros q cR HR cF HF cV HV.
  erewrite (Series_apply_pure
              (fun r => recencia_class (num_of_recencia (Recencia r.2))
                          "Recencia" q))
    by (intros x; apply (recencia_class_letra _ _ _ _ HR)).
  cbn [mbind result_bind].
  erewrite (Series_apply_pure
              (fun r => frequencia_class (Num (inject_Z (Frequencia r.2)))
                          "Frequencia" q))
    by (intros x; apply (frequencia_class_letra _ _ _ _ HF)).
  cbn [mbind result_bind].
  erewrite (Series_apply_pure
              (fun r => frequencia_class (Num (Valor r.2)) "Valor" q))
    by (intros x; apply (frequencia_class_letra _ _ _ _ HV)).
  cbn [mbind result_bind]. f_equal.
  induction df as [|r df IH]; [reflexivity|].
  cbn. f_equal. exact IH.
Qed.

Lemma elem_of_classifica (df : list (Z * rfv)) (k : Z) (o : rfv_class) :
  (k, o) ∈ linha_classificada (quartis_R df) (quartis_F df) (quartis_V df) <$> df ->
  (k, indicadores o) ∈ df /\
  R_quartil o =
    letra_recencia (num_of_recencia (Recencia (indicadores o))) (quartis_R df) /\
  F_quartil o =
    letra_frequencia (Num (inject_Z (Frequencia (indicadores o)))) (quartis_F df) /\
  V_quartil o = letra_frequencia (Num (Valor (indicadores o))) (quartis_V df).
Proof.
  intros H. apply list_elem_of_fmap in H as ([k' r] & Heq & Hr).
  injection Heq as -> ->. cbn. repeat split. exact Hr.
Qed.

Lemma letras_length (c : string) : c ∈ letras -> String.length c = 1%nat.
Proof.
  unfold letras. intros H.
  repeat (apply elem_of_cons in H as [->|H]; [reflexivity|]).
  now apply elem_of_nil in H.
Qed.

Lemma string_length_app (s1 s2 : string) :
  String.length (s1 ++ s2) = (String.length s1 + String.length s2)%nat.
Proof.
  induction s1 as [|a s1 IH]; [reflexivity|].
  change (String a s1 ++ s2) with (String a (s1 ++ s2)).
  cbn [String.length]. now rewrite IH.
Qed.

Lemma classifica_letras (df : list (Z * rfv)) (k : Z) (o : rfv_class) :
  (k, o) ∈ linha_classificada (quartis_R df) (quartis_F df) (quartis_V df) <$> df ->
  R_quartil o ∈ letras /\ F_quartil o ∈ letras /\ V_quartil o ∈ letras.
Proof.
  intros Ho. apply elem_of_classifica in Ho as (_ & HR & HF & HV).
  rewrite HR, HF, HV.
  split; [apply letra_recencia_letras|].
  split; apply letra_frequencia_letras.
Qed.

(** X3: classification never fails, on any indicator table. The
    classified table has the index labels and the indicator columns of
    the table it was given, row by row; every class letter in it is one
    of A, B, C, D, and every RFV score has three characters. *)
Theorem classifica_total (df : list (Z * rfv)) :
  exists out,
    classifica df = Ok out /\
    out.*1 = df.*1 /\
    indicadores <$> out.*2 = df.*2 /\
    forall k o, (k, o) ∈ out ->
      R_quartil o ∈ letras /\ F_quartil o ∈ letras /\ V_quartil o ∈ letras /\
      String.length (rfv_score o) = 3%nat.
Proof.
  eexists. split; [apply classifica_eq|].
  split; [|split].
  - rewrite <- list_fmap_compose. now apply list_fmap_ext.
  - rewrite <- !list_fmap_compose. now apply list_fmap_ext.
  - intros k o Ho. destruct (classifica_letras df k o Ho) as (LR & LF & LV).
    split; [exact LR|]. split; [exact LF|]. split; [exact LV|].
    unfold rfv_score. rewrite !string_length_app.
    now rewrite (letras_length _ LR), (letras_length _ LF), (letras_length _ LV).
Qed.

(** ** Where the breakpoints lie *)

Lemma In_Qsort (y : Q) (l : list Q) : In y (Qsort l) <-> In y l.
Proof.
  induction l as [|x l IH]; [reflexivity|].
  change (Qsort (x :: l)) with (Qinsert x (Qsort l)).
  rewrite In_Qinsert, IH. cbn. intuition congruence.
Qed.

(** A quantile lies between two values of the column. *)
Lemma quantile_between (xs : list Q) (p : Q) :
  xs <> [] -> (0 <= p)%Q -> (p <= 1)%Q ->
  exists v a b,
    quantile xs p = Num v /\ In a xs /\ In b xs /\ (a <= v)%Q /\ (v <= b)%Q.
Proof.
  intros Hne Hp0 Hp1. unfold quantile.
  pose proof (Qsort_sorted xs) as Hs. pose proof (length_Qsort xs) as Hl.
  assert (Hin : forall y, In y (Qsort xs) -> In y xs).
  { intros y Hy. now apply In_Qsort. }
  destruct (Qsort xs) as [|a s] eqn:E.
  { destruct xs; [contradiction|discriminate Hl]. }
  set (n := inject_Z (Z.of_nat (length (a :: s)))).
  assert (Hn : (1 <= n)%Q).
  { unfold n. change 1%Q with (inject_Z 1). rewrite <- Zle_Qle. cbn. lia. }
  assert (H0 : (0 <= (n - 1) * p)%Q) by nra.
  assert (H1 : ((n - 1) * p <= n - 1)%Q) by nra.
  destruct (interpola_bounds (a :: s) Hs ((n - 1) * p)%Q H0 H1) as [Hlow Hup].
  destruct (floor_in_range (a :: s) ((n - 1) * p)%Q H0 H1) as [_ Hi].
  cbn zeta in Hlow, Hup.
  set (i := Z.to_nat (Qfloor ((n - 1) * p))) in *.
  assert (Hlo : In (List.nth i (a :: s) 0%Q) (a :: s)) by now apply List.nth_In.
  eexists. exists (List.nth i (a :: s) 0%Q).
  exists (List.nth (S i) (a :: s) (List.nth i (a :: s) 0%Q)).
  split; [reflexivity|]. split; [now apply Hin|]. split; [|split; assumption].
  destruct (List.nth_in_or_default (S i) (a :: s) (List.nth i (a :: s) 0%Q))
    as [Hh|Hh].
  - now apply Hin.
  - rewrite Hh. now apply Hin.
Qed.

(** X4: the three breakpoints of a column that is not empty and holds
    integers below 2^48 in absolute value are numbers in non-decreasing
    order, and none is below the smallest or above the largest value of
    the column. *)
Theorem quartis_col_bounds (xs : list Q) (lo hi : Q) :
  xs <> [] ->
  forallb inteiro_pequeno xs = true ->
  (forall y, y ∈ xs -> (lo <= y)%Q /\ (y <= hi)%Q) ->
  exists q1 q2 q3,
    quartis_col xs = mk_qcol (Num q1) (Num q2) (Num q3) /\
    (lo <= q1)%Q /\ (q1 <= q2)%Q /\ (q2 <= q3)%Q /\ (q3 <= hi)%Q.
Proof.
  intros Hne _ Hb.
  destruct (quartis_col_ordered xs Hne) as (q1 & q2 & q3 & E & H12 & H23).
  exists q1, q2, q3. split; [exact E|].
  unfold quartis_col in E. injection E as E1 _ E3.
  destruct (quantile_between xs (1 # 4) Hne) as (v1 & a1 & b1 & F1 & Ha1 & _ & L1 & _);
    [lra|lra|].
  destruct (quantile_between xs (3 # 4) Hne) as (v3 & a3 & b3 & F3 & _ & Hb3 & _ & U3);
    [lra|lra|].
  rewrite E1 in F1. rewrite E3 in F3.
  injection F1 as ->. injection F3 as ->.
  apply list_elem_of_In, Hb in Ha1. apply list_elem_of_In, Hb in Hb3.
  split; [eapply Qle_trans; [apply Ha1|exact L1]|].
  split; [exact H12|]. split; [exact H23|].
  eapply Qle_trans; [exact U3|apply Hb3].
Qed.

(** ** The row with the smallest value *)

Lemma p25_above_min (x : Q) (xs : list Q) :
  xs <> [] -> (forall y, y ∈ xs -> (x <= y)%Q) ->
  num_le (Num x) (p25 (quartis_col xs)) = true.
Proof.
  intros Hne Hmin.
  destruct (quantile_between xs (1 # 4) Hne) as (v & a & b & E & Ha & _ & L & _);
    [lra|lra|].
  unfold quartis_col. cbn [p25]. rewrite E. apply num_le_Num.
  eapply Qle_trans; [|exact L]. apply Hmin. now apply list_elem_of_In.
Qed.

(** X5: in the classification of an indicator table whose numbers are
    integers below 2^48 in absolute value, the breakpoints never fall
    below the smallest value of their column, so a customer whose
    frequency is the smallest of the table has frequency class D, one
    whose value is the smallest has value class D, and one whose recency
    is the smallest has recency class A. *)
Theorem menor_da_tabela (df : list (Z * rfv)) :
  tabela_exata df = true ->
  exists out,
    classifica df = Ok out /\
    out.*1 = df.*1 /\
    forall k o, (k, o) ∈ out ->
      ((forall k' o', (k', o') ∈ out ->
          (Frequencia (indicadores o) <= Frequencia (indicadores o'))%Z) ->
       F_quartil o = "D") /\
      ((forall k' o', (k', o') ∈ out ->
          (Valor (indicadores o) <= Valor (indicadores o'))%Q) ->
       V_quartil o = "D") /\
      (forall d, Recencia (indicadores o) = Some d ->
         (forall k' o' d', (k', o') ∈ out ->
            Recencia (indicadores o') = Some d' -> (d <= d')%Z) ->
         R_quartil o = "A").
Proof.
  intros _. eexists. split; [apply classifica_eq|].
  split; [rewrite <- list_fmap_compose; now apply list_fmap_ext|].
  set (out := linha_classificada (quartis_R df) (quartis_F df) (quartis_V df) <$> df).
  assert (Hout : forall r, r ∈ df -> (r.1, snd (linha_classificada (quartis_R df) (quartis_F df) (quartis_V df) r)) ∈ out).
  { intros r Hr. unfold out.
    apply list_elem_of_fmap. exists r. split; [reflexivity|exact Hr]. }
  intros k o Ho. apply elem_of_classifica in Ho as (Hdf & HR & HF & HV).
  assert (Hne : df <> []) by (intros ->; now apply elem_of_nil in Hdf).
  split; [|split].
  - intros Hmin. rewrite HF. unfold letra_frequencia, quartis_F.
    rewrite p25_above_min; [reflexivity| |].
    + destruct df; [contradiction|discriminate].
    + intros y Hy. apply list_elem_of_fmap in Hy as (r & -> & Hr).
      rewrite <- Zle_Qle. apply (Hmin _ _ (Hout r Hr)).
  - intros Hmin. rewrite HV. unfold letra_frequencia, quartis_V.
    rewrite p25_above_min; [reflexivity| |].
    + destruct df; [contradiction|discriminate].
    + intros y Hy. apply list_elem_of_fmap in Hy as (r & -> & Hr).
      apply (Hmin _ _ (Hout r Hr)).
  - intros d Hd Hmin. rewrite HR, Hd. unfold letra_recencia, quartis_R.
    cbn [num_of_recencia].
    rewrite p25_above_min; [reflexivity| |].
    + intros Hnil.
      assert (Hin : d ∈ omap (fun r : Z * rfv => Recencia r.2) df).
      { apply list_elem_of_omap. exists (k, indicadores o). split; assumption. }
      destruct (omap (fun r : Z * rfv => Recencia r.2) df);
        [now apply elem_of_nil in Hin|discriminate].
    + intros y Hy. apply list_elem_of_fmap in Hy as (d' & -> & Hd').
      apply list_elem_of_omap in Hd' as (r & Hr & Hrd).
      rewrite <- Zle_Qle. apply (Hmin _ _ d' (Hout r Hr)). exact Hrd.
Qed.

(** ** Files the script rejects *)


(** Closes [c ∈ required_columns] for one of the four names. *)
Ltac in_required :=
  unfold required_columns;
  repeat first [apply list_elem_of_here | apply list_elem_of_further].

(** X8: nothing but the data lines and the presence of the four columns
    enters the computation: two files with the same lines that agree on
    which of the four columns they have give the same result, whatever
    the order of their columns and whatever other columns they carry. *)
Theorem colunas_a_mais (f f' : DataFrame) (sr sf sv : string) :
  linhas f = linhas f' ->
  (forall c, c ∈ required_columns -> (c ∈ columns f <-> c ∈ columns f')) ->
  script f sr sf sv = script f' sr sf sv.
Proof.
  intros Hl Hc.
  assert (Hcol : forall (A : Type) (c : string) (g : compra -> A),
             c ∈ required_columns -> column f c g = column f' c g).
  { intros A c g Hin. unfold column. rewrite Hl.
    destruct (decide (c ∈ columns f)) as [H|H],
             (decide (c ∈ columns f')) as [H'|H']; try reflexivity;
      exfalso; apply (Hc c Hin) in H || apply (Hc c Hin) in H'; contradiction. }
  assert (Hdf : df_RFV f = df_RFV f').
  { unfold df_RFV, dia_atual.
    rewrite !(Hcol _ "DiaCompra"), (Hcol _ "ID_cliente"),
      (Hcol _ "CodigoCompra"), (Hcol _ "ValorTotal") by in_required.
    reflexivity. }
  unfold script, read_csv.
  destruct (decide ("DiaCompra" ∈ columns f)) as [H|H],
           (decide ("DiaCompra" ∈ columns f')) as [H'|H'].
  - cbn [mbind result_bind]. now rewrite Hdf.
  - exfalso. apply H'. apply Hc; [in_required|exact H].
  - exfalso. apply H. apply Hc; [in_required|exact H'].
  - reflexivity.
Qed.

(** ** The indicators of every accepted file *)

Lemma df_RFV_aceito (df : DataFrame) :
  aceito df ->
  (read_csv df ≫= df_RFV) =
    Ok ((fun k => (k, linha_rfv df k)) <$> group_keys (ID_cliente <$> linhas df)).
Proof.
  intros [Hc Hp]. rewrite (read_csv_ok _ Hc). cbn [mbind result_bind].
  now apply df_RFV_eq.
Qed.

Lemma tabela_keys (df : DataFrame) :
  ((fun k => (k, linha_rfv df k)) <$> group_keys (ID_cliente <$> linhas df)).*1 =
  group_keys (ID_cliente <$> linhas df).
Proof.
  rewrite <- list_fmap_compose.
  rewrite <- (list_fmap_id (group_keys _)) at 2.
  now apply list_fmap_ext.
Qed.

Lemma length_insert_key (k : Z) (ks : list Z) :
  (length (insert_key k ks) <= S (length ks))%nat.
Proof.
  induction ks as [|k' ks IH]; [cbn; lia|].
  cbn [insert_key].
  destruct (k <? k')%Z; [cbn [length]; lia|].
  destruct (k =? k')%Z; cbn [length]; lia.
Qed.

Lemma length_group_keys (ids : list (option Z)) :
  (length (group_keys ids) <= length ids)%nat.
Proof.
  induction ids as [|[k|] ids IH]; [cbn; lia| |].
  - change (group_keys (Some k :: ids)) with (insert_key k (group_keys ids)).
    pose proof (length_insert_key k (group_keys ids)). cbn [length]. lia.
  - change (group_keys (None :: ids)) with (group_keys ids).
    cbn [length]. lia.
Qed.

(** X9: the table of every accepted file whose identifiers are below
    2^53 in absolute value and whose dates are within the range of the
    date arithmetic has its rows in strictly increasing order of
    customer identifier, one row for each identifier that occurs in a
    line and none for a line without identifier, hence never more rows
    than the file has lines. *)
Theorem tabela_ordenada (df : DataFrame) :
  aceito df ->
  ids_exatos df = true ->
  datas_exatas df = true ->
  exists tabela,
    (read_csv df ≫= df_RFV) = Ok tabela /\
    StronglySorted Z.lt tabela.*1 /\
    (forall k, k ∈ tabela.*1 <-> Some k ∈ ID_cliente <$> linhas df) /\
    (length tabela <= length (linhas df))%nat.
Proof.
  intros H _ _. eexists. split; [now apply df_RFV_aceito|].
  rewrite tabela_keys. split; [apply group_keys_sorted|]. split.
  - intros k. apply elem_of_group_keys.
  - rewrite length_fmap.
    pose proof (length_group_keys (ID_cliente <$> linhas df)) as L.
    now rewrite length_fmap in L.
Qed.

Lemma length_filter_le {A : Type} (p : A -> bool) (l : list A) :
  (length (List.filter p l) <= length l)%nat.
Proof.
  induction l as [|x l IH]; cbn; [lia|]. destruct (p x); cbn; lia.
Qed.

Lemma group_count_fmap (l : list compra) :
  group_count (CodigoCompra <$> l) =
  Z.of_nat (length (List.filter (fun c => bool_decide (is_Some (CodigoCompra c))) l)).
Proof.
  unfold group_count. f_equal.
  induction l as [|c l IH]; [reflexivity|].
  cbn. destruct (bool_decide (is_Some (CodigoCompra c))); cbn; now rewrite IH.
Qed.

Lemma sem_codigo_nil (l : list compra) :
  Forall (fun c => CodigoCompra c = None) l ->
  List.filter (fun c => bool_decide (is_Some (CodigoCompra c))) l = [].
Proof.
  induction 1 as [|c l Hc _ IH]; [reflexivity|].
  cbn. rewrite Hc. rewrite bool_decide_eq_false_2 by (intros [? ?]; discriminate).
  exact IH.
Qed.

(** X10: in the table of every accepted file whose identifiers are
    below 2^53 in absolute value and whose dates are within the range of
    the date arithmetic, every customer of the file has a row, and the
    frequency in the row of a customer is the number of its lines that
    have a purchase code; a line with an empty code is not counted, so
    the frequency lies between 0 and the number of lines of the
    customer, and it is 0 for a customer none of whose lines has a
    code. *)
Theorem frequencia_com_vazios (df : DataFrame) :
  aceito df ->
  ids_exatos df = true ->
  datas_exatas df = true ->
  exists tabela,
    (read_csv df ≫= df_RFV) = Ok tabela /\
    (forall k, Some k ∈ ID_cliente <$> linhas df -> exists r, (k, r) ∈ tabela) /\
    forall k r, (k, r) ∈ tabela ->
      Frequencia r = Z.of_nat (length (compras_com_codigo k df)) /\
      (0 <= Frequencia r <= Z.of_nat (length (compras_de k df)))%Z /\
      (Forall (fun c => CodigoCompra c = None) (compras_de k df) ->
       Frequencia r = 0%Z).
Proof.
  intros H _ _. eexists. split; [now apply df_RFV_aceito|]. split.
  { intros k Hk. eexists. now apply tabela_tem_cliente. }
  intros k r Hr. apply elem_of_tabela in Hr as [_ ->].
  cbn [linha_rfv Frequencia]. rewrite group_count_fmap.
  fold (compras_com_codigo k df). split; [reflexivity|]. split.
  - pose proof (length_filter_le
                  (fun c => bool_decide (is_Some (CodigoCompra c)))
                  (compras_de k df)) as L.
    fold (compras_com_codigo k df) in L. lia.
  - intros Hall. unfold compras_com_codigo.
    now rewrite (sem_codigo_nil _ Hall).
Qed.

(** X11: in the table of every accepted file whose identifiers are
    below 2^53 in absolute value, whose dates are within the range of
    the date arithmetic and whose amounts are integers with absolute
    values that add up to less than 2^53, every customer of the file has
    a row, and the value in the row of a customer is the sum of the
    amounts of its lines in which an empty amount counts as zero; a
    customer none of whose lines has an amount has value 0. *)
Theorem valor_com_vazios (df : DataFrame) :
  aceito df ->
  ids_exatos df = true ->
  datas_exatas df = true ->
  quantias_exatas df = true ->
  exists tabela,
    (read_csv df ≫= df_RFV) = Ok tabela /\
    (forall k, Some k ∈ ID_cliente <$> linhas df -> exists r, (k, r) ∈ tabela) /\
    forall k r, (k, r) ∈ tabela ->
      (Valor r == total_de (compras_de k df))%Q /\
      (Forall (fun c => ValorTotal c = None) (compras_de k df) ->
       (Valor r == 0)%Q).
Proof.
  intros H _ _ Hq. eexists. split; [now apply df_RFV_aceito|]. split.
  { intros k Hk. eexists. now apply tabela_tem_cliente. }
  intros k r Hr. apply elem_of_tabela in Hr as [_ ->].
  split; [now apply linha_rfv_exata|].
  intros Hall. rewrite (linha_rfv_exata df k Hq).
  induction Hall as [|c l Hc _ IH]; [reflexivity|].
  cbn. rewrite Hc. cbn. fold (total_de l). rewrite IH. reflexivity.
Qed.

Lemma ts_max_fmap_nil {A : Type} (f : A -> option Z) (l : list A) :
  omap f l = [] -> ts_max (f <$> l) = None.
Proof.
  intros H. destruct (ts_max (f <$> l)) as [m|] eqn:E; [|reflexivity].
  apply ts_max_fmap_is_max in E as [Hin _]. rewrite H in Hin.
  now apply elem_of_nil in Hin.
Qed.

Lemma ts_max_fmap_elem {A : Type} (f : A -> option Z) (l : list A) (t : Z) :
  t ∈ omap f l -> exists m, ts_max (f <$> l) = Some m /\ (t <= m)%Z.
Proof.
  intros Ht. destruct (ts_max (f <$> l)) as [m|] eqn:E.
  - exists m. split; [reflexivity|].
    apply ts_max_fmap_is_max in E as [_ Hub]. now apply Hub.
  - apply ts_max_fmap_None in E. rewrite E in Ht. now apply elem_of_nil in Ht.
Qed.

(** X12: in the table of every accepted file whose identifiers are
    below 2^53 in absolute value and whose dates are within the range of
    the date arithmetic, every customer of the file has a row, and the
    recency in the row of a customer is missing (NaN) exactly when none
    of its lines has a date, and is at least 1 otherwise; it is never
    zero and never negative. *)
Theorem recencia_com_vazios (df : DataFrame) :
  aceito df ->
  ids_exatos df = true ->
  datas_exatas df = true ->
  exists tabela,
    (read_csv df ≫= df_RFV) = Ok tabela /\
    (forall k, Some k ∈ ID_cliente <$> linhas df -> exists r, (k, r) ∈ tabela) /\
    forall k r, (k, r) ∈ tabela ->
      (Recencia r = None <-> datas_de (compras_de k df) = []) /\
      (forall d, Recencia r = Some d -> (1 <= d)%Z).
Proof.
  intros H _ _. eexists. split; [now apply df_RFV_aceito|]. split.
  { intros k Hk. eexists. now apply tabela_tem_cliente. }
  intros k r Hr. apply elem_of_tabela in Hr as [_ ->].
  cbn [linha_rfv Recencia]. unfold datas_de.
  destruct (ts_max (data_de <$> compras_de k df)) as [mk|] eqn:Ek.
  - pose proof (ts_max_fmap_is_max _ _ _ Ek) as [Hin Hub].
    assert (Hall : mk ∈ omap data_de (linhas df))
      by now apply (datas_de_compras_de k).
    destruct (ts_max_fmap_elem _ _ _ Hall) as (m & Em & Hm).
    rewrite Em. cbn. split.
    + split; [discriminate|]. intros Hnil. rewrite Hnil in Hin.
      now apply elem_of_nil in Hin.
    + intros d [= <-]. now apply days_lower_bound.
  - apply ts_max_fmap_None in Ek. split.
    + split; [intros _; exact Ek|].
      intros _. now destruct (ts_max (data_de <$> linhas df)).
    + intros d Hd. destruct (ts_max (data_de <$> linhas df)); discriminate Hd.
Qed.

(** ** Lines without a customer *)

Lemma compras_de_sem_anonimas (k : Z) (df : DataFrame) :
  compras_de k (sem_linhas_anonimas df) = compras_de k df.
Proof.
  unfold compras_de, sem_linhas_anonimas. cbn [linhas].
  induction (linhas df) as [|c l IH]; [reflexivity|].
  cbn. destruct (ID_cliente c) as [k'|] eqn:E; cbn.
  - rewrite E. now rewrite IH.
  - rewrite bool_decide_eq_false_2 by discriminate. exact IH.
Qed.

Lemma group_keys_sem_anonimas (df : DataFrame) :
  group_keys (ID_cliente <$> linhas (sem_linhas_anonimas df)) =
  group_keys (ID_cliente <$> linhas df).
Proof.
  unfold sem_linhas_anonimas, group_keys. cbn [linhas].
  induction (linhas df) as [|c l IH]; [reflexivity|].
  cbn [List.filter].
  destruct (ID_cliente c) as [k'|] eqn:E.
  - rewrite bool_decide_eq_true_2 by eauto.
    rewrite !fmap_cons. cbn [foldr]. rewrite E. now rewrite IH.
  - rewrite bool_decide_eq_false_2 by (intros [? ?]; discriminate).
    rewrite fmap_cons. cbn [foldr]. rewrite E. exact IH.
Qed.

Lemma aceito_sem_anonimas (df : DataFrame) :
  aceito df -> aceito (sem_linhas_anonimas df).
Proof.
  intros [Hc Hp]. split; [exact Hc|].
  intros s Hs. apply (Hp s).
  apply list_elem_of_fmap in Hs as (c & -> & Hin).
  apply list_elem_of_fmap. exists c. split; [reflexivity|].
  unfold sem_linhas_anonimas in Hin. cbn [linhas] in Hin.
  apply list_elem_of_In, filter_In in Hin as [Hin _].
  now apply list_elem_of_In.
Qed.

Lemma days_mono (a b : Z) : (a <= b)%Z -> (days a <= days b)%Z.
Proof. intros H. unfold days, Timedelta. apply Z.div_le_mono; lia. Qed.

Lemma quantias_exatas_sem_anonimas (df : DataFrame) :
  quantias_exatas df = true -> quantias_exatas (sem_linhas_anonimas df) = true.
Proof.
  unfold quantias_exatas, sem_linhas_anonimas. cbn [linhas].
  rewrite !andb_true_iff, !forallb_forall, !Z.ltb_lt. intros [Hi Hs]. split.
  - intros c Hc. apply filter_In in Hc as [Hc _]. now apply Hi.
  - pose proof (total_absoluto_filter
                  (fun c => bool_decide (is_Some (ID_cliente c))) (linhas df)).
    lia.
Qed.

(** X13: a line without customer identifier belongs to no row. In an
    accepted file whose identifiers are below 2^53 in absolute value,
    whose dates are within the range of the date arithmetic and whose
    amounts are integers with absolute values that add up to less than
    2^53, removing all such lines leaves the customers, their
    frequencies and their values as they are; but the line still counts
    for the reference date, so with it a recency is the same or greater,
    never smaller. *)
Theorem linhas_sem_cliente (df : DataFrame) :
  aceito df ->
  ids_exatos df = true ->
  datas_exatas df = true ->
  quantias_exatas df = true ->
  exists t t',
    (read_csv df ≫= df_RFV) = Ok t /\
    (read_csv (sem_linhas_anonimas df) ≫= df_RFV) = Ok t' /\
    t.*1 = t'.*1 /\
    (forall k, Some k ∈ ID_cliente <$> linhas df -> exists r, (k, r) ∈ t) /\
    forall k r r', (k, r) ∈ t -> (k, r') ∈ t' ->
      Frequencia r = Frequencia r' /\ (Valor r == Valor r')%Q /\
      (forall d', Recencia r' = Some d' ->
         exists d, Recencia r = Some d /\ (d' <= d)%Z).
Proof.
  intros H _ _ Hq. pose proof (aceito_sem_anonimas df H) as H'.
  pose proof (quantias_exatas_sem_anonimas df Hq) as Hq'.
  do 2 eexists. split; [now apply df_RFV_aceito|].
  split; [now apply df_RFV_aceito|].
  split; [now rewrite !tabela_keys, group_keys_sem_anonimas|].
  split; [intros k Hk; eexists; now apply tabela_tem_cliente|].
  intros k r r' Hr Hr'.
  apply elem_of_tabela in Hr as [_ ->]. apply elem_of_tabela in Hr' as [_ ->].
  split; [|split].
  { cbn [linha_rfv Frequencia]. now rewrite compras_de_sem_anonimas. }
  { rewrite (linha_rfv_exata df k Hq), (linha_rfv_exata _ k Hq').
    now rewrite compras_de_sem_anonimas. }
  cbn [linha_rfv Recencia]. rewrite compras_de_sem_anonimas.
  intros d' Hd'.
  destruct (ts_max (data_de <$> compras_de k df)) as [mk|] eqn:Ek;
    [|destruct (ts_max (data_de <$> linhas (sem_linhas_anonimas df)));
      discriminate Hd'].
  destruct (ts_max (data_de <$> linhas (sem_linhas_anonimas df))) as [m'|] eqn:Em';
    [|discriminate Hd'].
  cbn in Hd'. injection Hd' as <-.
  apply ts_max_fmap_is_max in Em' as [Hin' _].
  assert (Hin : m' ∈ omap data_de (linhas df)).
  { apply list_elem_of_omap in Hin' as (c & Hc & Hm).
    apply list_elem_of_omap. exists c. split; [|exact Hm].
    unfold sem_linhas_anonimas in Hc. cbn [linhas] in Hc.
    apply list_elem_of_In, filter_In in Hc as [Hc _].
    now apply list_elem_of_In. }
  destruct (ts_max_fmap_elem _ _ _ Hin) as (m & Em & Hm).
  rewrite Em. cbn. eexists. split; [reflexivity|].
  apply days_mono. lia.
Qed.

(** ** The order of the lines *)

Lemma filter_Permutation {A : Type} (p : A -> bool) (l l' : list A) :
  Permutation l l' -> Permutation (List.filter p l) (List.filter p l').
Proof.
  induction 1 as [|x l l' _ IH|x y l|l l' l'' _ IH1 _ IH2]; cbn.
  - constructor.
  - destruct (p x); [now constructor|exact IH].
  - destruct (p x), (p y); try reflexivity. apply perm_swap.
  - now transitivity (List.filter p l').
Qed.

Lemma sorted_lt_ext (l1 l2 : list Z) :
  StronglySorted Z.lt l1 -> StronglySorted Z.lt l2 ->
  (forall x, x ∈ l1 <-> x ∈ l2) -> l1 = l2.
Proof.
  intros H1. revert l2. induction H1 as [|a l1 Hs1 IH Ha]; intros l2 H2 Hext.
  - destruct l2 as [|b l2]; [reflexivity|].
    exfalso. apply (elem_of_nil b). apply Hext. left.
  - destruct H2 as [|b l2 Hs2 Hb].
    { exfalso. apply (elem_of_nil a). apply Hext. left. }
    rewrite Forall_forall in Ha, Hb.
    assert (Hab : a = b).
    { assert (Ha2 : a ∈ b :: l2) by (apply Hext; left).
      assert (Hb1 : b ∈ a :: l1) by (apply Hext; left).
      apply elem_of_cons in Ha2 as [?|Ha2]; [assumption|].
      apply elem_of_cons in Hb1 as [?|Hb1]; [congruence|].
      specialize (Ha _ Hb1). specialize (Hb _ Ha2). lia. }
    subst b. f_equal. apply IH; [assumption|].
    intros x. split; intros Hx.
    + assert (Hx' : x ∈ a :: l2) by (apply Hext; now right).
      apply elem_of_cons in Hx' as [->|Hx']; [|assumption].
      specialize (Ha _ Hx). lia.
    + assert (Hx' : x ∈ a :: l1) by (apply Hext; now right).
      apply elem_of_cons in Hx' as [->|Hx']; [|assumption].
      specialize (Hb _ Hx). lia.
Qed.

Lemma elem_of_Permutation {A : Type} (l l' : list A) (x : A) :
  Permutation l l' -> (x ∈ l <-> x ∈ l').
Proof.
  intros H. rewrite !list_elem_of_In. split.
  - now apply Permutation_in.
  - apply Permutation_in. now symmetry.
Qed.

Lemma group_keys_Permutation (l l' : list compra) :
  Permutation l l' ->
  group_keys (ID_cliente <$> l) = group_keys (ID_cliente <$> l').
Proof.
  intros H. apply sorted_lt_ext; try apply group_keys_sorted.
  intros k. rewrite !elem_of_group_keys, !list_elem_of_fmap.
  split; intros (c & Hk & Hc); exists c; (split; [exact Hk|]).
  - now apply (elem_of_Permutation l l').
  - now apply (elem_of_Permutation l l').
Qed.

Lemma ts_max_ext {A : Type} (f : A -> option Z) (l l' : list A) :
  (forall t, t ∈ omap f l <-> t ∈ omap f l') ->
  ts_max (f <$> l) = ts_max (f <$> l').
Proof.
  intros Hext.
  destruct (ts_max (f <$> l)) as [m|] eqn:E,
           (ts_max (f <$> l')) as [m'|] eqn:E'; try reflexivity.
  - apply ts_max_fmap_is_max in E as [Hin Hub].
    apply ts_max_fmap_is_max in E' as [Hin' Hub'].
    f_equal. apply Z.le_antisymm.
    + apply Hub'. now apply Hext.
    + apply Hub. now apply Hext.
  - apply ts_max_fmap_is_max in E as [Hin _].
    apply ts_max_fmap_None in E'. apply Hext in Hin. rewrite E' in Hin.
    now apply elem_of_nil in Hin.
  - apply ts_max_fmap_is_max in E' as [Hin _].
    apply ts_max_fmap_None in E. apply Hext in Hin. rewrite E in Hin.
    now apply elem_of_nil in Hin.
Qed.

Lemma ts_max_Permutation (l l' : list compra) :
  Permutation l l' -> ts_max (data_de <$> l) = ts_max (data_de <$> l').
Proof.
  intros H. apply ts_max_ext. intros t. rewrite !list_elem_of_omap.
  split; intros (c & Hc & Ht); exists c; (split; [|exact Ht]).
  - now apply (elem_of_Permutation l l').
  - now apply (elem_of_Permutation l l').
Qed.

Lemma total_de_Permutation (l l' : list compra) :
  Permutation l l' -> (total_de l == total_de l')%Q.
Proof.
  induction 1 as [|x l l' _ IH|x y l|l l' l'' _ IH1 _ IH2].
  - reflexivity.
  - cbn. fold (total_de l) (total_de l'). now rewrite IH.
  - cbn. fold (total_de l). ring.
  - now rewrite IH1.
Qed.

Lemma forallb_Permutation {A : Type} (p : A -> bool) (l l' : list A) :
  Permutation l l' -> forallb p l = forallb p l'.
Proof.
  induction 1 as [|x l l' _ IH|x y l|l l' l'' _ IH1 _ IH2]; cbn.
  - reflexivity.
  - now rewrite IH.
  - destruct (p x), (p y); reflexivity.
  - now rewrite IH1.
Qed.

Lemma is_int64_fmap (l : list compra) :
  is_int64 (ValorTotal <$> l) = forallb (fun c => int64_literal (ValorTotal c)) l.
Proof.
  unfold is_int64. induction l as [|c l IH]; [reflexivity|].
  cbn. now rewrite IH.
Qed.

Lemma total_inteiro_Permutation (l l' : list compra) :
  Permutation l l' -> total_inteiro l = total_inteiro l'.
Proof.
  induction 1 as [|x l l' _ IH|x y l|l l' l'' _ IH1 _ IH2].
  - reflexivity.
  - cbn. fold (total_inteiro l) (total_inteiro l'). now rewrite IH.
  - cbn. fold (total_inteiro l). lia.
  - now rewrite IH1.
Qed.

Lemma total_absoluto_Permutation (l l' : list compra) :
  Permutation l l' -> total_absoluto l = total_absoluto l'.
Proof.
  induction 1 as [|x l l' _ IH|x y l|l l' l'' _ IH1 _ IH2].
  - reflexivity.
  - cbn. fold (total_absoluto l) (total_absoluto l'). now rewrite IH.
  - cbn. fold (total_absoluto l). lia.
  - now rewrite IH1.
Qed.

(** The value of a customer does not depend on the order of the lines
    when the amounts are added in int64 or every addition is exact. *)
Lemma valor_Permutation (df df' : DataFrame) (k : Z) :
  Permutation (linhas df) (linhas df') ->
  quantias_int64 df = true \/ quantias_exatas df = true ->
  (Valor (linha_rfv df k) == Valor (linha_rfv df' k))%Q.
Proof.
  intros Hperm Hq.
  assert (Pk : Permutation (compras_de k df) (compras_de k df'))
    by now apply filter_Permutation.
  destruct Hq as [Hq|Hq].
  - assert (Hq' : quantias_int64 df' = true).
    { unfold quantias_int64 in *. rewrite is_int64_fmap in *.
      now rewrite <- (forallb_Permutation _ _ _ Hperm). }
    rewrite (linha_rfv_int64 df k Hq), (linha_rfv_int64 df' k Hq').
    now rewrite (total_inteiro_Permutation _ _ Pk).
  - assert (Hq' : quantias_exatas df' = true).
    { unfold quantias_exatas in *.
      now rewrite <- (forallb_Permutation _ _ _ Hperm),
        <- (total_absoluto_Permutation _ _ Hperm). }
    rewrite (linha_rfv_exata df k Hq), (linha_rfv_exata df' k Hq').
    now apply total_de_Permutation.
Qed.

(** X14: the order of the lines of the file does not matter. Two
    accepted files with the same columns whose lines are a rearrangement
    of each other, with identifiers below 2^53 in absolute value and
    dates within the range of the date arithmetic, give the same
    customers in the same order, each with the same recency and the same
    frequency, and with an equal value when the amounts form an int64
    column or are integers with absolute values that add up to less
    than 2^53. *)
Theorem ordem_das_linhas (df df' : DataFrame) :
  columns df = columns df' ->
  Permutation (linhas df) (linhas df') ->
  aceito df ->
  ids_exatos df = true ->
  datas_exatas df = true ->
  exists t t',
    (read_csv df ≫= df_RFV) = Ok t /\
    (read_csv df' ≫= df_RFV) = Ok t' /\
    t.*1 = t'.*1 /\
    (forall k, Some k ∈ ID_cliente <$> linhas df -> exists r, (k, r) ∈ t) /\
    forall k r r', (k, r) ∈ t -> (k, r') ∈ t' ->
      Recencia r = Recencia r' /\ Frequencia r = Frequencia r' /\
      (quantias_int64 df = true \/ quantias_exatas df = true ->
       (Valor r == Valor r')%Q).
Proof.
  intros Hcol Hperm H _ _.
  assert (H' : aceito df').
  { destruct H as [Hc Hp]. split.
    - unfold has_columns in *. now rewrite <- Hcol.
    - intros s Hs. apply (Hp s).
      apply list_elem_of_fmap in Hs as (c & -> & Hin).
      apply list_elem_of_fmap. exists c. split; [reflexivity|].
      now apply (elem_of_Permutation (linhas df) (linhas df')). }
  do 2 eexists. split; [now apply df_RFV_aceito|].
  split; [now apply df_RFV_aceito|].
  split; [rewrite !tabela_keys; now apply group_keys_Permutation|].
  split; [intros k Hk; eexists; now apply tabela_tem_cliente|].
  intros k r r' Hr Hr'.
  apply elem_of_tabela in Hr as [_ ->]. apply elem_of_tabela in Hr' as [_ ->].
  assert (Pk : Permutation (compras_de k df) (compras_de k df'))
    by now apply filter_Permutation.
  split; [|split].
  - cbn [linha_rfv Recencia].
    now rewrite (ts_max_Permutation _ _ Hperm), (ts_max_Permutation _ _ Pk).
  - cbn [linha_rfv Frequencia]. rewrite !group_count_fmap. f_equal.
    apply Permutation_length. now apply filter_Permutation.
  - now apply valor_Permutation.
Qed.

(** ** The filtered table *)

Lemma selecionada_true (sr sf sv : string) (r : Z * rfv_class) :
  selecionada sr sf sv r = true <->
  R_quartil r.2 = sr /\ F_quartil r.2 = sf /\ V_quartil r.2 = sv.
Proof.
  unfold selecionada. rewrite !andb_true_iff, !String.eqb_eq. tauto.
Qed.

Lemma elem_of_reset_index {A : Type} (l : list (Z * A)) (i : Z) (x : A) :
  (i, x) ∈ reset_index l -> exists k, (k, x) ∈ l.
Proof.
  intros H.
  assert (Hx : x ∈ (reset_index l).*2).
  { apply list_elem_of_fmap. exists (i, x). split; [reflexivity|exact H]. }
  rewrite reset_index_data in Hx.
  apply list_elem_of_fmap in Hx as ([k y] & -> & Hy). now exists k.
Qed.

Lemma df_RFV1_classes (df : list (Z * rfv_class)) (sr sf sv : string)
    (i : Z) (o : rfv_class) :
  (i, o) ∈ reset_index (List.filter (selecionada sr sf sv) df) ->
  R_quartil o = sr /\ F_quartil o = sf /\ V_quartil o = sv /\
  rfv_score o = sr ++ sf ++ sv.
Proof.
  intros Ho. apply elem_of_reset_index in Ho as [k Hk].
  apply list_elem_of_In, filter_In in Hk as [_ Hsel].
  apply selecionada_true in Hsel as (HR & HF & HV). cbn in HR, HF, HV.
  unfold rfv_score. now rewrite HR, HF, HV.
Qed.

(** X15: every row of the filtered table carries the three selected
    classes, so its RFV score is the score the comment box is about, and
    the filtered table never has more rows than the classified one. *)
Theorem filtrada_tem_classes (df : list (Z * rfv_class)) (sr sf sv : string) :
  exists out,
    df_RFV1 df sr sf sv = Ok out /\
    (length out <= length df)%nat /\
    forall i o, (i, o) ∈ out ->
      R_quartil o = sr /\ F_quartil o = sf /\ V_quartil o = sv /\
      rfv_score o = sr ++ sf ++ sv.
Proof.
  eexists. split; [apply df_RFV1_eq|]. split.
  - rewrite length_reset_index. apply length_filter_le.
  - intros i o. apply df_RFV1_classes.
Qed.

(** X16: filtering is idempotent: applying the three filters with the
    same selection to their own result gives that result again, labels
    included. *)
Theorem filtrada_idempotente (df : list (Z * rfv_class)) (sr sf sv : string) :
  exists out,
    df_RFV1 df sr sf sv = Ok out /\ df_RFV1 out sr sf sv = Ok out.
Proof.
  eexists. split; [apply df_RFV1_eq|].
  rewrite df_RFV1_eq. f_equal.
  set (p := fun o => String.eqb (R_quartil o) sr && String.eqb (F_quartil o) sf &&
                     String.eqb (V_quartil o) sv).
  change (selecionada sr sf sv) with (fun r : Z * rfv_class => p r.2).
  rewrite (filter_reset_index p). f_equal.
  rewrite filter_filter_and. apply List.filter_ext.
  intros r. now rewrite andb_diag.
Qed.

(** X17: only the three class columns are useful filters. On an
    indicator column the comparison with a letter is false in every row
    and the result is the empty table; a name that is not a column,
    such as that of the index [ID_cliente], raises the KeyError of that
    name; and with [verificacao] set the table comes back untouched. *)
Theorem selecao_outras_colunas (df : list (Z * rfv_class)) (col sel : string) :
  (col ∈ ["Recencia"; "Frequencia"; "Valor"] ->
     selecao_valores_categoricos df col sel false = Ok []) /\
  (col ∉ ["Recencia"; "Frequencia"; "Valor";
          "R_quartil"; "F_quartil"; "V_quartil"] ->
     selecao_valores_categoricos df col sel false = Err (KeyError col)) /\
  selecao_valores_categoricos df col sel true = Ok df.
Proof.
  split; [|split; [|reflexivity]].
  - intros H.
    assert (E : exists f, getcol col = Some f /\ forall r, exists x, f r = CNum x).
    { repeat (apply elem_of_cons in H as [->|H];
              [eexists; split; [reflexivity|]; intros r; eexists; reflexivity|]).
      now apply elem_of_nil in H. }
    destruct E as (f & Ef & Hf).
    rewrite (selecao_valores_categoricos_eq df col sel f Ef). f_equal.
    assert (Hnil : List.filter (fun r : Z * rfv_class => cell_eq (f r.2) sel) df = []).
    { induction df as [|r df IH]; [reflexivity|].
      cbn. destruct (Hf r.2) as [x ->]. cbn. exact IH. }
    now rewrite Hnil.
  - intros H. unfold selecao_valores_categoricos.
    assert (E : getcol col = None).
    { unfold getcol.
      repeat match goal with
             | |- context [String.eqb col ?n] =>
                 destruct (String.eqb_spec col n) as [->|_];
                 [exfalso; apply H;
                  repeat first [apply list_elem_of_here
                               | apply list_elem_of_further]|]
             end.
      reflexivity. }
    now rewrite E.
Qed.

(** ** The 64 settings of the select boxes *)

Lemma sum_list_with_add {A : Type} (f g : A -> nat) (l : list A) :
  sum_list_with (fun x => (f x + g x)%nat) l =
  (sum_list_with f l + sum_list_with g l)%nat.
Proof. induction l as [|x l IH]; cbn; [reflexivity|]. rewrite IH. lia. Qed.

Lemma uma_selecao (r : Z * rfv_class) :
  R_quartil r.2 ∈ letras -> F_quartil r.2 ∈ letras -> V_quartil r.2 ∈ letras ->
  sum_list_with
    (fun s : string * string * string =>
       if selecionada s.1.1 s.1.2 s.2 r then 1%nat else 0%nat) selecoes = 1%nat.
Proof.
  destruct r as [k [ind R F V]]. unfold letras. cbn [snd R_quartil F_quartil V_quartil].
  intros HR HF HV.
  repeat (apply elem_of_cons in HR as [->|HR]);
    try (now apply elem_of_nil in HR);
  repeat (apply elem_of_cons in HF as [->|HF]);
    try (now apply elem_of_nil in HF);
  repeat (apply elem_of_cons in HV as [->|HV]);
    try (now apply elem_of_nil in HV);
  vm_compute; reflexivity.
Qed.

Lemma sum_list_with_ext {A : Type} (f g : A -> nat) (l : list A) :
  (forall x, f x = g x) -> sum_list_with f l = sum_list_with g l.
Proof.
  intros H. induction l as [|x l IH]; cbn; [reflexivity|]. now rewrite H, IH.
Qed.

Lemma particao_filter (df : list (Z * rfv_class)) :
  (forall r, r ∈ df ->
     R_quartil r.2 ∈ letras /\ F_quartil r.2 ∈ letras /\ V_quartil r.2 ∈ letras) ->
  sum_list_with
    (fun s : string * string * string =>
       length (List.filter (selecionada s.1.1 s.1.2 s.2) df)) selecoes =
  length df.
Proof.
  induction df as [|r df IH]; intros H.
  - vm_compute. reflexivity.
  - rewrite (sum_list_with_ext _
               (fun s : string * string * string =>
                  ((if selecionada s.1.1 s.1.2 s.2 r then 1 else 0) +
                   length (List.filter (selecionada s.1.1 s.1.2 s.2) df))%nat)).
    + rewrite sum_list_with_add.
      destruct (H r) as (HR & HF & HV); [left|].
      rewrite (uma_selecao r HR HF HV).
      rewrite IH; [reflexivity|]. intros r' Hr'. apply H. now right.
    + intros s. cbn [List.filter].
      now destruct (selecionada s.1.1 s.1.2 s.2 r).
Qed.

(** X18: the 64 settings of the three select boxes split the classified
    table: counted over all settings, the rows of the filtered tables
    are as many as the customers, so every customer is shown under one
    setting and under no other. *)
Theorem particao_das_selecoes (df : list (Z * rfv)) :
  exists classificada,
    classifica df = Ok classificada /\
    sum_list_with (linhas_filtradas classificada) selecoes = length df.
Proof.
  eexists. split; [apply classifica_eq|].
  rewrite (sum_list_with_ext _
             (fun s : string * string * string =>
                length (List.filter (selecionada s.1.1 s.1.2 s.2)
                          (linha_classificada (quartis_R df) (quartis_F df)
                             (quartis_V df) <$> df)))).
  - rewrite particao_filter; [apply length_fmap|].
    intros [k o] Ho. exact (classifica_letras df k o Ho).
  - intros s. unfold linhas_filtradas. rewrite df_RFV1_eq.
    apply length_reset_index.
Qed.

(** ** Runs of the page *)

Lemma df_marketing_strategy_eq (df : list (Z * rfv_class)) (st : session_state)
    (m : gmap string string) :
  comentarios st = Ok m ->
  df_marketing_strategy df st =
    Ok ((fun r => (r.1, mk_estrategia (rfv_score r.2)
                          (default "" (m !! rfv_score r.2)))) <$> df).
Proof.
  intros H. unfold df_marketing_strategy.
  apply Series_apply_pure. intros r. unfold comentario_de. now rewrite H.
Qed.

Lemma comentarios_estado_inicial (c : clique) (st : session_state) :
  exists m, comentarios (estado_inicial c st) = Ok m /\
            comentarios_rfv (estado_inicial c st) = Some m.
Proof.
  unfold estado_inicial.
  destruct c, st as [[m|] w]; cbn; eexists; split; reflexivity.
Qed.

Lemma executa_eq (c : clique) (score : string) (st : session_state) :
  executa c score st =
    match c with
    | EnviarComentario txt => enviar_comentario score txt (estado_inicial c st)
    | LimparComentario => limpar_comentario score (estado_inicial c st)
    | _ => Ok (estado_inicial c st)
    end.
Proof. now destruct c. Qed.

(** X19: a run of the page never fails, whatever was clicked and
    whatever the session held, because the first lines of the script
    put the comment dictionary back when it is missing. The run leaves
    a comment dictionary in the session, and the strategy table it shows
    has the labels and the scores of the rows of the filtered table. *)
Theorem pagina_nunca_falha (c : clique) (sr sf sv : string)
    (df : list (Z * rfv_class)) (st : session_state) :
  exists tab st',
    pagina_filtrada c sr sf sv df st = Ok (tab, st') /\
    executa c (sr ++ sf ++ sv) st = Ok st' /\
    is_Some (comentarios_rfv st') /\
    tab.*1 = df.*1 /\
    RFV_Score <$> tab.*2 = rfv_score <$> df.*2.
Proof.
  destruct (comentarios_estado_inicial c st) as (m & Hm & Hm').
  unfold pagina_filtrada. fold (estado_inicial c st).
  rewrite (df_marketing_strategy_eq _ _ _ Hm). cbn [mbind result_bind].
  unfold comentario_de at 1. rewrite Hm. cbn [mbind result_bind].
  rewrite executa_eq.
  assert (Htab1 : ((fun r : Z * rfv_class =>
                      (r.1, mk_estrategia (rfv_score r.2)
                              (default "" (m !! rfv_score r.2)))) <$> df).*1 = df.*1).
  { rewrite <- list_fmap_compose. now apply list_fmap_ext. }
  assert (Htab2 : RFV_Score <$>
                    ((fun r : Z * rfv_class =>
                        (r.1, mk_estrategia (rfv_score r.2)
                                (default "" (m !! rfv_score r.2)))) <$> df).*2 =
                  rfv_score <$> df.*2).
  { rewrite <- !list_fmap_compose. now apply list_fmap_ext. }
  destruct c; unfold enviar_comentario, limpar_comentario;
    rewrite ?Hm; cbn [mbind result_bind];
    do 2 eexists; (split; [reflexivity|]); (split; [reflexivity|]);
    (split; [cbn; eauto|]); (split; [exact Htab1|exact Htab2]).
Qed.

(** X20: a comment that is sent is the one read back for its score, and
    sending again for the same score replaces it: the state is the one
    that sending only the second comment gives. *)
Theorem comentario_enviado (score t1 t2 : string) (st : session_state) :
  exists st1 st2,
    executa (EnviarComentario t1) score st = Ok st1 /\
    executa (EnviarComentario t2) score st1 = Ok st2 /\
    comentario_de score st1 = Ok t1 /\
    comentario_de score st2 = Ok t2 /\
    executa (EnviarComentario t2) score st = Ok st2.
Proof.
  destruct st as [[m|] w]; cbn; do 2 eexists;
    (split; [reflexivity|]); (split; [reflexivity|]); cbn;
    rewrite ?lookup_insert_eq, ?insert_insert_eq; repeat split; reflexivity.
Qed.

(** X21: clearing the comment of a score never fails. Afterwards the
    comment read for that score is the empty text, and when no comment
    was saved for the score the dictionary is left as it was. *)
Theorem comentario_limpo (score : string) (st : session_state) :
  exists st1,
    executa LimparComentario score st = Ok st1 /\
    comentario_de score st1 = Ok "" /\
    (comentarios_iniciais st !! score = None ->
     comentarios st1 = Ok (comentarios_iniciais st)).
Proof.
  destruct st as [[m|] w]; cbn; eexists; (split; [reflexivity|]); cbn;
    rewrite lookup_delete_eq; (split; [reflexivity|]); intros H.
  - now rewrite (delete_id _ _ H).
  - now rewrite delete_empty.
Qed.

Lemma pagina_filtrada_enviar (df : list (Z * rfv_class))
    (sr sf sv txt : string) (st : session_state) :
  pagina_filtrada (EnviarComentario txt) sr sf sv df st =
    Ok ((fun r => (r.1, mk_estrategia (rfv_score r.2)
                          (default "" (comentarios_iniciais st !! rfv_score r.2))))
          <$> df,
        mk_session (Some (<[sr ++ sf ++ sv := txt]> (comentarios_iniciais st)))
                   (widgets st)).
Proof.
  unfold pagina_filtrada.
  rewrite (df_marketing_strategy_eq df (inicializa st) _ (comentarios_inicializa st)).
  cbn [mbind result_bind].
  unfold comentario_de, enviar_comentario. rewrite comentarios_inicializa.
  cbn [mbind result_bind]. now destruct st as [[m|] w].
Qed.

Lemma pagina_filtrada_nenhum (df : list (Z * rfv_class))
    (sr sf sv : string) (m : gmap string string) (w : gmap string string) :
  pagina_filtrada Nenhum sr sf sv df (mk_session (Some m) w) =
    Ok ((fun r => (r.1, mk_estrategia (rfv_score r.2)
                          (default "" (m !! rfv_score r.2)))) <$> df,
        mk_session (Some m) w).
Proof.
  unfold pagina_filtrada. cbn [inicializa comentarios_rfv].
  rewrite (df_marketing_strategy_eq df (mk_session (Some m) w) m eq_refl).
  reflexivity.
Qed.

(** X22: the strategy table of a run is built before the buttons are
    looked at. In the run in which a comment is sent for the selected
    score, every row of the table shown (and exported) still carries the
    comment saved before, or the empty text; the comment just sent
    appears in every row only in the following run. *)
Theorem comentario_atrasado (df : list (Z * rfv_class)) (sr sf sv txt : string)
    (st : session_state) :
  exists out tab1 st1 tab2 st2,
    df_RFV1 df sr sf sv = Ok out /\
    pagina_filtrada (EnviarComentario txt) sr sf sv out st = Ok (tab1, st1) /\
    pagina_filtrada Nenhum sr sf sv out st1 = Ok (tab2, st2) /\
    (forall i e, (i, e) ∈ tab1 ->
       RFV_Score e = sr ++ sf ++ sv /\
       Comentario e = default "" (comentarios_iniciais st !! (sr ++ sf ++ sv))) /\
    (forall i e, (i, e) ∈ tab2 ->
       RFV_Score e = sr ++ sf ++ sv /\ Comentario e = txt).
Proof.
  pose proof (df_RFV1_classes df sr sf sv) as Hsel.
  do 5 eexists. split; [apply df_RFV1_eq|].
  split; [apply pagina_filtrada_enviar|].
  split; [apply pagina_filtrada_nenhum|]. split.
  - intros i e He. apply list_elem_of_fmap in He as ([k o] & [= -> ->] & Ho).
    destruct (Hsel k o Ho) as (_ & _ & _ & Hs). cbn. now rewrite Hs.
  - intros i e He. apply list_elem_of_fmap in He as ([k o] & [= -> ->] & Ho).
    destruct (Hsel k o Ho) as (_ & _ & _ & Hs). cbn. rewrite Hs.
    now rewrite lookup_insert_eq.
Qed.


(** X24: a row of the indicator table whose recency is missing (the
    customer has no purchase date) is not left out by the
    classification: the classified table has a row with the same label
    and the same indicators, its recency still missing, and the recency
    class of every such row is D, whatever the other customers are. *)
Theorem sem_data_classe_D (df : list (Z * rfv)) :
  exists out,
    classifica df = Ok out /\
    (forall k r, (k, r) ∈ df -> Recencia r = None ->
       exists o, (k, o) ∈ out /\ indicadores o = r /\ R_quartil o = "D") /\
    (forall k o, (k, o) ∈ out ->
       Recencia (indicadores o) = None -> R_quartil o = "D").
Proof.
  eexists. split; [apply classifica_eq|]. split.
  - intros k r Hr Hn.
    exists (linha_classificada (quartis_R df) (quartis_F df) (quartis_V df)
              (k, r)).2.
    split; [|split].
    + apply list_elem_of_fmap. exists (k, r). split; [reflexivity|exact Hr].
    + reflexivity.
    + cbn. rewrite Hn. reflexivity.
  - intros k o Ho Hn. apply elem_of_classifica in Ho as (_ & HR & _).
    rewrite HR, Hn. cbn [num_of_recencia].
    unfold letra_recencia. reflexivity.
Qed.


(** ** A file with empty fields *)

(** Customer 1 keeps the one line with a purchase code and the one
    amount it has, and its recency runs to the day after the line
    without customer; customer 2, with nothing but its identifier, has
    no recency, frequency 0 and value 0, and the score DDD. *)
Example cenario_vazios :
  script exemplo_vazios "D" "D" "D" =
    Ok ([(1%Z, mk_rfv_class (mk_rfv (Some 20%Z) 1%Z 100%Q) "A" "A" "A");
         (2%Z, mk_rfv_class (mk_rfv None 0%Z 0%Q) "D" "D" "D")],
        [(0%Z, mk_rfv_class (mk_rfv None 0%Z 0%Q) "D" "D" "D")]).
Proof. vm_compute. reflexivity. Qed.

(** ** The further theorems at concrete inputs *)

Lemma aceito_b_true (df : DataFrame) : aceito_b df = true -> aceito df.
Proof.
  unfold aceito_b. rewrite andb_true_iff. intros [Hc Hl].
  split; [exact Hc|]. intros s Hs.
  apply list_elem_of_fmap in Hs as (c & Hs & Hc').
  rewrite forallb_forall in Hl. apply list_elem_of_In in Hc'.
  specialize (Hl c Hc'). rewrite <- Hs in Hl. discriminate Hl.
Qed.

Lemma classifier_nan_witness :
  recencia_class NaN "Valor" {["Valor" := mk_qcol (Num 1) (Num 2) (Num 3)]} =
    Ok "D" /\
  frequencia_class NaN "Valor" {["Valor" := mk_qcol (Num 1) (Num 2) (Num 3)]} =
    Ok "A".
Proof.
  assert (Hq : ({["Valor" := mk_qcol (Num 1) (Num 2) (Num 3)]} : q_table)
                 !! "Valor" = Some (mk_qcol (Num 1) (Num 2) (Num 3)))
    by (vm_compute; reflexivity).
  exact (classifier_nan NaN "Valor" _ _ Hq (or_introl eq_refl)).
Defined.

Lemma quartis_col_bounds_witness :
  forallb inteiro_pequeno [4; 1; 3; 2]%Q = true /\
  exists q1 q2 q3,
    quartis_col [4; 1; 3; 2]%Q = mk_qcol (Num q1) (Num q2) (Num q3) /\
    (1 <= q1)%Q /\ (q1 <= q2)%Q /\ (q2 <= q3)%Q /\ (q3 <= 4)%Q.
Proof.
  split; [reflexivity|].
  apply (quartis_col_bounds [4; 1; 3; 2]%Q 1 4).
  - discriminate.
  - reflexivity.
  - intros y Hy.
    repeat (apply elem_of_cons in Hy as [->|Hy];
            [split; unfold Qle; simpl; lia|]).
    now apply elem_of_nil in Hy.
Defined.

(** The indicator table of the scenario. *)
Lemma menor_da_tabela_witness :
  tabela_exata [(1%Z, mk_rfv (Some 1%Z) 2%Z 150%Q);
                (2%Z, mk_rfv (Some 6%Z) 1%Z 200%Q)] = true /\
  exists out,
    classifica [(1%Z, mk_rfv (Some 1%Z) 2%Z 150%Q);
                (2%Z, mk_rfv (Some 6%Z) 1%Z 200%Q)] = Ok out /\
    out.*1 = [(1%Z, mk_rfv (Some 1%Z) 2%Z 150%Q);
              (2%Z, mk_rfv (Some 6%Z) 1%Z 200%Q)].*1 /\
    forall k o, (k, o) ∈ out ->
      ((forall k' o', (k', o') ∈ out ->
          (Frequencia (indicadores o) <= Frequencia (indicadores o'))%Z) ->
       F_quartil o = "D") /\
      ((forall k' o', (k', o') ∈ out ->
          (Valor (indicadores o) <= Valor (indicadores o'))%Q) ->
       V_quartil o = "D") /\
      (forall d, Recencia (indicadores o) = Some d ->
         (forall k' o' d', (k', o') ∈ out ->
            Recencia (indicadores o') = Some d' -> (d <= d')%Z) ->
         R_quartil o = "A").
Proof.
  split; [reflexivity|].
  apply (menor_da_tabela [(1%Z, mk_rfv (Some 1%Z) 2%Z 150%Q);
                          (2%Z, mk_rfv (Some 6%Z) 1%Z 200%Q)]).
  reflexivity.
Defined.

Lemma colunas_a_mais_witness :
  script exemplo "A" "A" "D" =
  script (mk_df (columns exemplo_trocado) (linhas exemplo)) "A" "A" "D".
Proof.
  apply (colunas_a_mais exemplo (mk_df (columns exemplo_trocado) (linhas exemplo))).
  - reflexivity.
  - intros c Hc. unfold required_columns in Hc.
    repeat (apply elem_of_cons in Hc as [->|Hc];
            [split; intros _; cbn;
             repeat first [apply list_elem_of_here | apply list_elem_of_further]|]).
    now apply elem_of_nil in Hc.
Defined.

Lemma tabela_ordenada_witness :
  aceito exemplo_vazios /\
  ids_exatos exemplo_vazios = true /\
  datas_exatas exemplo_vazios = true /\
  exists tabela,
    (read_csv exemplo_vazios ≫= df_RFV) = Ok tabela /\
    StronglySorted Z.lt tabela.*1 /\
    (forall k, k ∈ tabela.*1 <-> Some k ∈ ID_cliente <$> linhas exemplo_vazios) /\
    (length tabela <= length (linhas exemplo_vazios))%nat.
Proof.
  assert (H : aceito exemplo_vazios) by (apply aceito_b_true; reflexivity).
  split; [exact H|]. split; [reflexivity|]. split; [reflexivity|].
  exact (tabela_ordenada exemplo_vazios H eq_refl eq_refl).
Defined.

Lemma frequencia_com_vazios_witness :
  aceito exemplo_vazios /\
  ids_exatos exemplo_vazios = true /\
  datas_exatas exemplo_vazios = true /\
  exists tabela,
    (read_csv exemplo_vazios ≫= df_RFV) = Ok tabela /\
    (forall k, Some k ∈ ID_cliente <$> linhas exemplo_vazios ->
       exists r, (k, r) ∈ tabela) /\
    forall k r, (k, r) ∈ tabela ->
      Frequencia r = Z.of_nat (length (compras_com_codigo k exemplo_vazios)) /\
      (0 <= Frequencia r <= Z.of_nat (length (compras_de k exemplo_vazios)))%Z /\
      (Forall (fun c => CodigoCompra c = None) (compras_de k exemplo_vazios) ->
       Frequencia r = 0%Z).
Proof.
  assert (H : aceito exemplo_vazios) by (apply aceito_b_true; reflexivity).
  split; [exact H|]. split; [reflexivity|]. split; [reflexivity|].
  exact (frequencia_com_vazios exemplo_vazios H eq_refl eq_refl).
Defined.

Lemma valor_com_vazios_witness :
  aceito exemplo_vazios /\
  ids_exatos exemplo_vazios = true /\
  datas_exatas exemplo_vazios = true /\
  quantias_exatas exemplo_vazios = true /\
  exists tabela,
    (read_csv exemplo_vazios ≫= df_RFV) = Ok tabela /\
    (forall k, Some k ∈ ID_cliente <$> linhas exemplo_vazios ->
       exists r, (k, r) ∈ tabela) /\
    forall k r, (k, r) ∈ tabela ->
      (Valor r == total_de (compras_de k exemplo_vazios))%Q /\
      (Forall (fun c => ValorTotal c = None) (compras_de k exemplo_vazios) ->
       (Valor r == 0)%Q).
Proof.
  assert (H : aceito exemplo_vazios) by (apply aceito_b_true; reflexivity).
  split; [exact H|]. split; [reflexivity|]. split; [reflexivity|].
  split; [reflexivity|].
  exact (valor_com_vazios exemplo_vazios H eq_refl eq_refl eq_refl).
Defined.

Lemma recencia_com_vazios_witness :
  aceito exemplo_vazios /\
  ids_exatos exemplo_vazios = true /\
  datas_exatas exemplo_vazios = true /\
  exists tabela,
    (read_csv exemplo_vazios ≫= df_RFV) = Ok tabela /\
    (forall k, Some k ∈ ID_cliente <$> linhas exemplo_vazios ->
       exists r, (k, r) ∈ tabela) /\
    forall k r, (k, r) ∈ tabela ->
      (Recencia r = None <-> datas_de (compras_de k exemplo_vazios) = []) /\
      (forall d, Recencia r = Some d -> (1 <= d)%Z).
Proof.
  assert (H : aceito exemplo_vazios) by (apply aceito_b_true; reflexivity).
  split; [exact H|]. split; [reflexivity|]. split; [reflexivity|].
  exact (recencia_com_vazios exemplo_vazios H eq_refl eq_refl).
Defined.

Lemma linhas_sem_cliente_witness :
  aceito exemplo_vazios /\
  ids_exatos exemplo_vazios = true /\
  datas_exatas exemplo_vazios = true /\
  quantias_exatas exemplo_vazios = true /\
  exists t t',
    (read_csv exemplo_vazios ≫= df_RFV) = Ok t /\
    (read_csv (sem_linhas_anonimas exemplo_vazios) ≫= df_RFV) = Ok t' /\
    t.*1 = t'.*1 /\
    (forall k, Some k ∈ ID_cliente <$> linhas exemplo_vazios ->
       exists r, (k, r) ∈ t) /\
    forall k r r', (k, r) ∈ t -> (k, r') ∈ t' ->
      Frequencia r = Frequencia r' /\ (Valor r == Valor r')%Q /\
      (forall d', Recencia r' = Some d' ->
         exists d, Recencia r = Some d /\ (d' <= d)%Z).
Proof.
  assert (H : aceito exemplo_vazios) by (apply aceito_b_true; reflexivity).
  split; [exact H|]. split; [reflexivity|]. split; [reflexivity|].
  split; [reflexivity|].
  exact (linhas_sem_cliente exemplo_vazios H eq_refl eq_refl eq_refl).
Defined.


Lemma ordem_das_linhas_witness :
  Permutation (linhas exemplo) (linhas exemplo_trocado) /\
  aceito exemplo /\
  ids_exatos exemplo = true /\
  datas_exatas exemplo = true /\
  exists t t',
    (read_csv exemplo ≫= df_RFV) = Ok t /\
    (read_csv (mk_df (columns exemplo) (linhas exemplo_trocado)) ≫= df_RFV) = Ok t' /\
    t.*1 = t'.*1 /\
    (forall k, Some k ∈ ID_cliente <$> linhas exemplo ->
       exists r, (k, r) ∈ t) /\
    forall k r r', (k, r) ∈ t -> (k, r') ∈ t' ->
      Recencia r = Recencia r' /\ Frequencia r = Frequencia r' /\
      (quantias_int64 exemplo = true \/ quantias_exatas exemplo = true ->
       (Valor r == Valor r')%Q).
Proof.
  assert (P : Permutation (linhas exemplo) (linhas exemplo_trocado))
    by apply perm_swap.
  assert (H : aceito exemplo) by (apply aceito_b_true; reflexivity).
  split; [exact P|]. split; [exact H|].
  split; [reflexivity|]. split; [reflexivity|].
  exact (ordem_das_linhas exemplo
           (mk_df (columns exemplo) (linhas exemplo_trocado)) eq_refl P H
           eq_refl eq_refl).
Defined.
